(** * The ClamAV grep plugin of w3af (plugins/grep/clamav.py)

    A shallow embedding of the plugin class [clamav]: its state (the fields
    set by [__init__]), its methods as computations over that state and over
    the state of the clamd daemon, and the events the methods send to their
    collaborators (the daemon, the bloom filter, the output manager and the
    knowledge base).  The results about the parser, the probe, the
    deduplication and the reporting step follow the definitions. *)

From Stdlib Require Import String Ascii List Bool ZArith Lia.
From Stdlib Require Import DecimalString.
Import ListNotations.

Local Open Scope list_scope.
Local Open Scope string_scope.

(** ** Python values

    The values a clamd reply can be made of.  Python 2's [str] and [unicode]
    are one type here: on ASCII text they hash and compare alike, which is
    all the plugin relies on ([u'stream'] is found under the key ['stream'],
    [u'FOUND' == 'FOUND']). *)

#[local] Set Warnings "-register-all".

Inductive pyval : Type :=
| PyNone
| PyBool (b : bool)
| PyInt (z : Z)
| PyStr (s : string)
| PyTuple (items : list pyval)
| PyList (items : list pyval)
| PyDict (entries : list (pyval * pyval)).

(** The exceptions that occur: the ones raised by subscripting, attribute
    access and string formatting, the ones of the clamd client
    ([ConnectionError], [ResponseError], [BufferTooLongError]), the socket
    layer's, and the option list's. *)

Inductive exn : Type :=
| KeyError
| IndexError
| TypeError
| AttributeError
| ConnectionError
| ResponseError
| BufferTooLongError
| SocketError
| BaseFrameworkException.

(** How a statement completes: with a value, or with a raised exception. *)

Inductive completion (A : Type) : Type :=
| Return (a : A)
| Raise (e : exn).

Arguments Return {A} a.
Arguments Raise {A} e.

(** [v == s] for a string literal [s]: only a string with the same text is
    equal to it. *)

Definition py_eq_str (v : pyval) (s : string) : bool :=
  match v with
  | PyStr t => String.eqb t s
  | _ => false
  end.

(** [v == i] for an integer literal [i]; [True == 1] and [False == 0]. *)

Definition py_eq_int (v : pyval) (i : Z) : bool :=
  match v with
  | PyInt z => Z.eqb z i
  | PyBool b => Z.eqb (if b then 1 else 0)%Z i
  | _ => false
  end.

Fixpoint dict_lookup (same : pyval -> bool) (entries : list (pyval * pyval))
  : option pyval :=
  match entries with
  | [] => None
  | (k, v) :: rest => if same k then Some v else dict_lookup same rest
  end.

(** [v[key]] for a string literal [key]. *)

Definition getitem_str (v : pyval) (key : string) : completion pyval :=
  match v with
  | PyDict entries =>
      match dict_lookup (fun k => py_eq_str k key) entries with
      | Some x => Return x
      | None => Raise KeyError
      end
  | _ => Raise TypeError
  end.

Fixpoint string_nth (s : string) (i : nat) : option ascii :=
  match s, i with
  | EmptyString, _ => None
  | String c _, O => Some c
  | String _ rest, S j => string_nth rest j
  end.

(** [v[i]] for a literal index [i >= 0]. *)

Definition getitem_int (v : pyval) (i : nat) : completion pyval :=
  match v with
  | PyTuple items | PyList items =>
      match nth_error items i with
      | Some x => Return x
      | None => Raise IndexError
      end
  | PyStr s =>
      match string_nth s i with
      | Some c => Return (PyStr (String c EmptyString))
      | None => Raise IndexError
      end
  | PyDict entries =>
      match dict_lookup (fun k => py_eq_int k (Z.of_nat i)) entries with
      | Some x => Return x
      | None => Raise KeyError
      end
  | _ => Raise TypeError
  end.

(** [str] and [repr] of a value, as [%s] renders it.  The text of a string
    is put between single quotes as it is (no escapes, no [u] prefix). *)

Definition join (sep : string) (parts : list string) : string :=
  match parts with
  | [] => EmptyString
  | p :: rest => fold_left (fun acc q => acc ++ sep ++ q) rest p
  end.

Fixpoint py_repr (v : pyval) : string :=
  match v with
  | PyNone => "None"
  | PyBool b => if b then "True" else "False"
  | PyInt z => NilZero.string_of_int (Z.to_int z)
  | PyStr s => "'" ++ s ++ "'"
  | PyTuple items =>
      match items with
      | [x] => "(" ++ py_repr x ++ ",)"
      | _ => "(" ++ join ", " (map py_repr items) ++ ")"
      end
  | PyList items => "[" ++ join ", " (map py_repr items) ++ "]"
  | PyDict entries =>
      "{" ++ join ", " (map (fun kv => py_repr (fst kv) ++ ": " ++ py_repr (snd kv))
                            entries) ++ "}"
  end.

Definition py_str (v : pyval) : string :=
  match v with
  | PyStr s => s
  | _ => py_repr v
  end.

(** [(before + '%s' + after) % v] with a single [%s] in the format: a tuple
    on the right is the argument list, so it must have exactly one item; any
    other value is the one argument. *)

Definition format1 (before after : string) (v : pyval) : completion string :=
  match v with
  | PyTuple [x] => Return (before ++ py_str x ++ after)
  | PyTuple _ => Raise TypeError
  | _ => Return (before ++ py_str v ++ after)
  end.

(** ** ScanResult = namedtuple('ScanResult', ['found', 'signature']) *)

Record ScanResult : Type := mkScanResult {
  found : bool;
  signature : pyval
}.

(** The statements under [try:] in [_parse_scan_result]. *)

Definition _parse_scan_result_try (result : pyval) : completion ScanResult :=
  match getitem_str result "stream" with
  | Raise e => Raise e
  | Return entry =>
      match getitem_int entry 1 with
      | Raise e => Raise e
      | Return sig =>
          match getitem_str result "stream" with
          | Raise e => Raise e
          | Return entry' =>
              match getitem_int entry' 0 with
              | Raise e => Raise e
              | Return status =>
                  Return (mkScanResult (py_eq_str status "FOUND") sig)
              end
          end
      end
  end.

(** ** Requests, responses and findings *)

(** What the plugin reads of an HTTP request and of an HTTP response:
    [get_method()], and [get_code()], [get_url()], [get_body()] and [id]. *)

Record HTTPRequest : Type := mkRequest {
  get_method : string
}.

Record HTTPResponse : Type := mkResponse {
  get_code : Z;
  get_url : string;
  get_body : list Byte.byte;
  id : Z
}.

(** [Info(name, desc, response_ids, plugin_name)], then [set_url(url)]. *)

Record Info : Type := mkInfo {
  info_name : string;
  info_desc : string;
  info_response_id : Z;
  info_plugin_name : string;
  info_url : option string
}.

Definition set_url (url : string) (i : Info) : Info :=
  {| info_name := info_name i;
     info_desc := info_desc i;
     info_response_id := info_response_id i;
     info_plugin_name := info_plugin_name i;
     info_url := Some url |}.

(** ** Calls to the collaborators

    Every call the plugin makes on a collaborator is recorded, in the order
    of the calls: the three daemon commands with the socket of the connection
    they go through, the two operations of the bloom filter, the three
    severities of the output manager, and the knowledge base. *)

Inductive event : Type :=
| Ping (socket : string)
| Version (socket : string)
| Instream (socket : string) (body : list Byte.byte)
| BloomContains (url : string)
| BloomAdd (url : string)
| OmInformation (msg : string)
| OmError (msg : string)
| OmDebug (msg : string)
| KbAppend (location : string) (i : Info).

Definition is_ping (e : event) : bool :=
  match e with Ping _ => true | _ => false end.

Definition is_instream (e : event) : bool :=
  match e with Instream _ _ => true | _ => false end.

Definition is_bloom (e : event) : bool :=
  match e with BloomContains _ | BloomAdd _ => true | _ => false end.

Definition is_kb_append (e : event) : bool :=
  match e with KbAppend _ _ => true | _ => false end.

Definition is_log (e : event) : bool :=
  match e with OmInformation _ | OmError _ | OmDebug _ => true | _ => false end.

(** The number of health checks, and of scan dispatches, among some calls. *)

Definition pings (evs : list event) : nat := length (filter is_ping evs).

Definition dispatches (evs : list event) : nat := length (filter is_instream evs).

(** The URLs added to the filter among some calls, the first one first, and
    the number of findings sent to the knowledge base. *)

Definition added (evs : list event) : list string :=
  flat_map (fun e => match e with BloomAdd url => [url] | _ => [] end) evs.

Definition findings (evs : list event) : nat := length (filter is_kb_append evs).

(** The socket a daemon command goes through. *)

Definition socket_of (e : event) : option string :=
  match e with
  | Ping s | Version s | Instream s _ => Some s
  | _ => None
  end.

(** A call that is a daemon command goes through the socket [s]. *)

Definition goes_through (s : string) (e : event) : Prop :=
  forall s', socket_of e = Some s' -> s' = s.

(** Modelled from the spec: [ScalableBloomFilter] (core.data.bloomfilter) is
    not among the sources.  It is a membership structure with "add" and "test
    membership" that may report an element it never received, never forgets
    one it received, and only grows. *)

Class DedupFilter : Type := {
  bloom : Type;
  bloom_new : bloom;
  bloom_add : string -> bloom -> bloom;
  bloom_contains : string -> bloom -> bool;
  bloom_add_same : forall x f, bloom_contains x (bloom_add x f) = true;
  bloom_add_mono : forall x y f,
      bloom_contains y f = true -> bloom_contains y (bloom_add x f) = true
}.

(** The filter that received the elements of [l], the last one first. *)

Definition bloom_of_list {F : DedupFilter} (l : list string) : bloom :=
  fold_right bloom_add bloom_new l.

(** A filter without false positives reports only what it received. *)

Definition no_false_positives (F : DedupFilter) : Prop :=
  forall l x, bloom_contains x (bloom_of_list l) = true -> In x l.

(** The clamd daemon behind [clamd.ClamdUnixSocket]: a state of its own, and
    for each command the reply (a value, or an exception raised by the
    client) and the daemon's next state.  The first argument is the path of
    the socket the connection was made for. *)

Inductive reply : Type :=
| Reply (v : pyval)
| Fail (e : exn).

Record Daemon : Type := mkDaemon {
  dstate : Type;
  daemon_ping : string -> dstate -> reply * dstate;
  daemon_version : string -> dstate -> reply * dstate;
  daemon_instream : string -> list Byte.byte -> dstate -> reply * dstate
}.

(** [METHODS = ('GET',)] and [HTTP_CODES = (200,)]. *)

Definition METHODS : list string := ["GET"].

Definition HTTP_CODES : list Z := [200%Z].

(** [self.get_name()]: the name of the plugin class. *)

Definition get_name : string := "clamav".

(** The double quote of the messages. *)

Definition dquote : string := String (ascii_of_nat 34) EmptyString.

(** What [opt_factory(name, default_value, desc, type, help=...)] makes: an
    option with its name, its value, its description, its type and its help
    text.  [STRING] is the one option type the plugin imports. *)

Inductive option_type : Type :=
| STRING.

Record opt : Type := mkOpt {
  opt_name : string;
  opt_value : string;
  opt_desc : string;
  opt_type : option_type;
  opt_help : string
}.

(** [options_list[name].get_value()]: the option list ([OptionList] is not
    among the sources) as the list of its options' names and values; asking
    for an option that is not in the list raises. *)

Definition OptionList : Type := list (string * string).

Fixpoint option_value (options_list : OptionList) (name : string)
  : completion string :=
  match options_list with
  | [] => Raise BaseFrameworkException
  | (n, v) :: rest =>
      if String.eqb n name then Return v else option_value rest name
  end.

(** The names and values of the options of a list, which is what
    [options_list[name].get_value()] reads. *)

Definition names_and_values (options : list opt) : OptionList :=
  map (fun o => (opt_name o, opt_value o)) options.

(** [not v] for what [_is_properly_configured] returns ([None], [True] or
    [False]). *)

Definition py_not (v : option bool) : bool :=
  match v with
  | Some true => false
  | _ => true
  end.

(** [result.found] and [result.signature]: [result] is a [ScanResult], or
    [None], which has no attributes. *)

Definition attr_found (result : option ScanResult) : completion bool :=
  match result with
  | Some r => Return (found r)
  | None => Raise AttributeError
  end.

Definition attr_signature (result : option ScanResult) : completion pyval :=
  match result with
  | Some r => Return (signature r)
  | None => Raise AttributeError
  end.

(** ** Filters and daemons to run the plugin with *)

(** The filter that keeps the very elements it received. *)

#[export] Instance ExactFilter : DedupFilter.
Proof.
  refine {| bloom := list string;
            bloom_new := [];
            bloom_add := fun x f => x :: f;
            bloom_contains := fun x f => existsb (String.eqb x) f |}.
  - intros x f. simpl. rewrite String.eqb_refl. reflexivity.
  - intros x y f H. simpl. rewrite H. apply orb_true_r.
Defined.

(** A daemon that gives the same reply to every ping and to every scan, and
    whose reply to the version command depends on how many times the
    command was sent before. *)

Definition scripted (pong : reply) (ver : nat -> reply) (scan : reply) : Daemon :=
  {| dstate := nat;
     daemon_ping := fun _ n => (pong, n);
     daemon_version := fun _ n => (ver n, S n);
     daemon_instream := fun _ _ n => (scan, n) |}.

Definition clamd_0_97 : reply := Reply (PyStr "ClamAV 0.97.8/17000").

(** A daemon in good health that answers every scan with [scan]. *)

Definition healthy (scan : reply) : Daemon :=
  scripted (Reply (PyStr "PONG")) (fun _ => clamd_0_97) scan.

(** A daemon that answers the ping, and loses the first connection made for
    the version command. *)

Definition slow_start : Daemon :=
  scripted (Reply (PyStr "PONG"))
           (fun n => match n with O => Fail ConnectionError | S _ => clamd_0_97 end)
           (Reply (PyDict [(PyStr "stream", PyTuple [PyStr "OK"; PyNone])])).

(** A daemon that is not there. *)

Definition unreachable : Daemon :=
  scripted (Fail ConnectionError) (fun _ => Fail ConnectionError)
           (Fail ConnectionError).

Definition eicar_request : HTTPRequest := mkRequest "GET".

Definition eicar_response : HTTPResponse :=
  mkResponse 200 "http://x/test" [Byte.x58; Byte.x35; Byte.x4f] 7.

Definition other_response : HTTPResponse :=
  mkResponse 200 "http://x/other" [Byte.x58; Byte.x35; Byte.x4f] 8.

(** The replies of clamd's INSTREAM named in [_parse_scan_result]. *)

Definition eicar_found : pyval :=
  PyDict [(PyStr "stream", PyTuple [PyStr "FOUND"; PyStr "Eicar-Test-Signature"])].

Definition stream_ok : pyval :=
  PyDict [(PyStr "stream", PyTuple [PyStr "OK"; PyNone])].

(** clamd's reply to a stream it could not scan. *)

Definition stream_error : pyval :=
  PyDict [(PyStr "stream", PyTuple [PyStr "ERROR"; PyStr "Can't allocate memory"])].

(** A healthy daemon whose client fails during the scan, one that answers
    with an empty dictionary, one that finds the test signature, and one
    that could not scan the stream. *)

Definition broken_scanner : Daemon := healthy (Fail ConnectionError).

Definition empty_reply : Daemon := healthy (Reply (PyDict [])).

Definition eicar_scanner : Daemon := healthy (Reply eicar_found).

Definition failing_scanner : Daemon := healthy (Reply stream_error).

(** A request with a method that is not allowed, and an option list that
    moves the socket. *)

Definition post_request : HTTPRequest := mkRequest "POST".

Definition other_socket : OptionList := [("clamd_socket", "/tmp/clamd.socket")].

(** [s] occurs in [t]. *)

Definition occurs_in (s t : string) : Prop :=
  exists before after, t = before ++ s ++ after.

(** ** The plugin *)

Section Plugin.

Context {F : DedupFilter} (D : Daemon).

(** The fields of a [clamav] object.  [_properly_configured] is [None] until
    the probe is resolved.  The lock [_config_check_lock] has no field: the
    methods are run one call after the other. *)

Record clamav : Type := mkClamav {
  _already_analyzed : bloom;
  _properly_configured : option bool;
  _clamd_socket : string
}.

Definition __init__ : clamav :=
  {| _already_analyzed := bloom_new;
     _properly_configured := None;
     _clamd_socket := "/var/run/clamav/clamd.ctl" |}.

(** The plugin object and the daemon it talks to. *)

Record world : Type := mkWorld {
  self : clamav;
  clamd : dstate D
}.

(** What running a method gives: how it completed, the plugin and the daemon
    afterwards (also when it raised: what was assigned stays assigned), and
    the calls it made on the collaborators, the first one first. *)

Record run (A : Type) : Type := mkRun {
  value : completion A;
  after : world;
  calls : list event
}.

Arguments mkRun {A} value after calls.
Arguments value {A} r.
Arguments after {A} r.
Arguments calls {A} r.

Definition M (A : Type) : Type := world -> run A.

Definition ret {A : Type} (a : A) : M A :=
  fun w => mkRun (Return a) w [].

Definition bind {A B : Type} (m : M A) (k : A -> M B) : M B :=
  fun w =>
    match m w with
    | mkRun (Raise e) w1 evs1 => mkRun (Raise e) w1 evs1
    | mkRun (Return a) w1 evs1 =>
        match k a w1 with
        | mkRun v w2 evs2 => mkRun v w2 (evs1 ++ evs2)%list
        end
    end.

(** [try: body / except: handler], the bare [except] that catches all. *)

Definition try_except {A : Type} (body handler : M A) : M A :=
  fun w =>
    match body w with
    | mkRun (Return a) w1 evs1 => mkRun (Return a) w1 evs1
    | mkRun (Raise _) w1 evs1 =>
        match handler w1 with
        | mkRun v w2 evs2 => mkRun v w2 (evs1 ++ evs2)%list
        end
    end.

Definition lift {A : Type} (c : completion A) : M A :=
  fun w => mkRun c w [].

Definition call (e : event) : M unit :=
  fun w => mkRun (Return tt) w [e].

Definition read {A : Type} (field : clamav -> A) : M A :=
  fun w => mkRun (Return (field (self w))) w [].

Definition assign (update : clamav -> clamav) : M unit :=
  fun w => mkRun (Return tt) (mkWorld (update (self w)) (clamd w)) [].

Definition command (e : event) (cmd : dstate D -> reply * dstate D) : M pyval :=
  fun w =>
    mkRun (match fst (cmd (clamd w)) with
           | Reply v => Return v
           | Fail x => Raise x
           end)
          (mkWorld (self w) (snd (cmd (clamd w)))) [e].

Notation "x <- m ;; k" := (bind m (fun x => k))
  (at level 61, m at next level, right associativity).
Notation "m ;; k" := (bind m (fun _ => k))
  (at level 61, right associativity).

(** The assignments to the fields. *)

Definition set__already_analyzed (f : bloom) (c : clamav) : clamav :=
  {| _already_analyzed := f;
     _properly_configured := _properly_configured c;
     _clamd_socket := _clamd_socket c |}.

Definition set__properly_configured (v : option bool) (c : clamav) : clamav :=
  {| _already_analyzed := _already_analyzed c;
     _properly_configured := v;
     _clamd_socket := _clamd_socket c |}.

Definition set__clamd_socket (s : string) (c : clamav) : clamav :=
  {| _already_analyzed := _already_analyzed c;
     _properly_configured := _properly_configured c;
     _clamd_socket := s |}.

(** [clamd.ClamdUnixSocket(path=...)] keeps the path; each command then
    makes its own round trip to the daemon. *)

Record ClamdUnixSocket : Type := mkClamdUnixSocket {
  path : string
}.

Definition ping (cd : ClamdUnixSocket) : M pyval :=
  command (Ping (path cd)) (daemon_ping D (path cd)).

Definition version (cd : ClamdUnixSocket) : M pyval :=
  command (Version (path cd)) (daemon_version D (path cd)).

Definition instream (cd : ClamdUnixSocket) (body : list Byte.byte) : M pyval :=
  command (Instream (path cd) body) (daemon_instream D (path cd) body).

(** [url in self._already_analyzed] and [self._already_analyzed.add(url)]. *)

Definition already_analyzed_contains (url : string) : M bool :=
  f <- read _already_analyzed ;;
  call (BloomContains url) ;;
  ret (bloom_contains url f).

Definition already_analyzed_add (url : string) : M unit :=
  f <- read _already_analyzed ;;
  call (BloomAdd url) ;;
  assign (set__already_analyzed (bloom_add url f)).

(** [self.kb_append(self, 'malware', i)]. *)

Definition kb_append (location : string) (i : Info) : M unit :=
  call (KbAppend location i).

Definition _get_connection : M ClamdUnixSocket :=
  s <- read _clamd_socket ;;
  ret (mkClamdUnixSocket s).

Definition _connection_test : M bool :=
  try_except
    (cd <- _get_connection ;;
     pong <- ping cd ;;
     ret (py_eq_str pong "PONG"))
    (ret false).

Definition _get_clamd_version : M pyval :=
  cd <- _get_connection ;;
  version cd.

Definition _is_properly_configured : M (option bool) :=
  cached <- read _properly_configured ;;
  match cached with
  | Some b => ret (Some b)
  | None =>
      ok <- _connection_test ;;
      (if ok then
         v <- _get_clamd_version ;;
         msg <- lift (format1 "Using " " for scanning HTTP response bodies." v) ;;
         call (OmInformation msg) ;;
         assign (set__properly_configured (Some true))
       else
         s <- read _clamd_socket ;;
         call (OmError ("The ClamAV plugin failed to connect to clamd using"
                        ++ " the provided unix socket: " ++ dquote ++ s ++ dquote
                        ++ ". Please verify your"
                        ++ " configuration and try again.")) ;;
         assign (set__properly_configured (Some false))) ;;
      read _properly_configured
  end.

Definition _parse_scan_result (result : pyval) : M (option ScanResult) :=
  try_except
    (r <- lift (_parse_scan_result_try result) ;;
     ret (Some r))
    (msg <- lift (format1 "Invalid response from clamd: " EmptyString result) ;;
     call (OmDebug msg) ;;
     ret None).

Definition malware_desc (url : string) (sig : pyval) : string :=
  "ClamAV identified malware at URL: " ++ dquote ++ url ++ dquote
  ++ ", the matched signature name is " ++ dquote ++ py_str sig ++ dquote ++ ".".

Definition _scan_http_response (request : HTTPRequest) (response : HTTPResponse)
  : M unit :=
  cd <- _get_connection ;;
  result_dict <- instream cd (get_body response) ;;
  result <- _parse_scan_result result_dict ;;
  fnd <- lift (attr_found result) ;;
  if fnd then
    sig <- lift (attr_signature result) ;;
    let desc := malware_desc (get_url response) sig in
    let i := mkInfo "Malware identified" desc (id response) get_name None in
    let i := set_url (get_url response) i in
    kb_append "malware" i
  else
    ret tt.

Definition allowed_method (request : HTTPRequest) : bool :=
  existsb (String.eqb (get_method request)) METHODS.

Definition allowed_code (response : HTTPResponse) : bool :=
  existsb (Z.eqb (get_code response)) HTTP_CODES.

Definition grep (request : HTTPRequest) (response : HTTPResponse) : M unit :=
  configured <- _is_properly_configured ;;
  if py_not configured then ret tt
  else if negb (allowed_method request) || negb (allowed_code response) then ret tt
  else
    seen <- already_analyzed_contains (get_url response) ;;
    if seen then ret tt
    else
      already_analyzed_add (get_url response) ;;
      _scan_http_response request response.

Definition set_options (options_list : OptionList) : M unit :=
  v <- lift (option_value options_list "clamd_socket") ;;
  assign (set__clamd_socket v).

Definition get_options : M (list opt) :=
  s <- read _clamd_socket ;;
  let d := "ClamAV daemon socket path" in
  let h := "Communication with ClamAV is performed over an Unix socket, in"
           ++ " order to be able to use this plugin please start a clamd daemon"
           ++ " and provide the unix socket path." in
  let o := mkOpt "clamd_socket" s d STRING h in
  ret [o].

(** The daemon's reply to the scan of [response], and the world once the
    reply is there. *)

Definition scan_reply (w : world) (response : HTTPResponse) : reply :=
  fst (daemon_instream D (_clamd_socket (self w)) (get_body response) (clamd w)).

Definition scanned (w : world) (response : HTTPResponse) : world :=
  mkWorld (self w)
          (snd (daemon_instream D (_clamd_socket (self w)) (get_body response)
                                (clamd w))).

Definition scan_call (w : world) (response : HTTPResponse) : event :=
  Instream (_clamd_socket (self w)) (get_body response).

Definition malware_info (response : HTTPResponse) (sig : pyval) : Info :=
  {| info_name := "Malware identified";
     info_desc := malware_desc (get_url response) sig;
     info_response_id := id response;
     info_plugin_name := get_name;
     info_url := Some (get_url response) |}.

(** The world once [url] is added to the filter. *)

Definition marked (w : world) (url : string) : world :=
  mkWorld (set__already_analyzed (bloom_add url (_already_analyzed (self w)))
                                 (self w))
          (clamd w).

(** The life of the process: the framework calls the plugin's entry points,
    one call after the other, in any order and with any arguments. *)

Inductive op : Type :=
| Grep (request : HTTPRequest) (response : HTTPResponse)
| SetOptions (options_list : OptionList)
| IsProperlyConfigured.

Definition run_op (o : op) (w : world) : world * list event :=
  match o with
  | Grep request response =>
      let r := grep request response w in (after r, calls r)
  | SetOptions options_list =>
      let r := set_options options_list w in (after r, calls r)
  | IsProperlyConfigured =>
      let r := _is_properly_configured w in (after r, calls r)
  end.

Fixpoint run_ops (ops : list op) (w : world) : world * list event :=
  match ops with
  | [] => (w, [])
  | o :: rest =>
      let (w1, evs1) := run_op o w in
      let (w2, evs2) := run_ops rest w1 in
      (w2, (evs1 ++ evs2)%list)
  end.

(** A new plugin in front of a daemon in the state [d]. *)

Definition start (d : dstate D) : world :=
  mkWorld __init__ d.

(** The same, once the probe was called. *)

Definition probed (d : dstate D) : world :=
  after (_is_properly_configured (start d)).

(** ** Results *)

Implicit Types (w : world) (request : HTTPRequest) (response : HTTPResponse).

Ltac unfold_run :=
  unfold grep, _scan_http_response, _parse_scan_result, _is_properly_configured,
    _connection_test, _get_clamd_version, _get_connection, set_options,
    already_analyzed_contains, already_analyzed_add, kb_append,
    ping, version, instream, command, try_except, bind, ret, lift, call,
    read, assign in *.

(** *** The probe *)

Lemma probe_resolved w b :
  _properly_configured (self w) = Some b ->
  _is_properly_configured w = mkRun (Return (Some b)) w [].
Proof.
  intros H. unfold_run. simpl. rewrite H. reflexivity.
Qed.

Lemma probe_unresolved w :
  _properly_configured (self w) = None ->
  let r := _is_properly_configured w in
  filter is_ping (calls r) = [Ping (_clamd_socket (self w))]
  /\ filter is_instream (calls r) = []
  /\ filter is_bloom (calls r) = []
  /\ filter is_kb_append (calls r) = []
  /\ _already_analyzed (self (after r)) = _already_analyzed (self w)
  /\ _clamd_socket (self (after r)) = _clamd_socket (self w)
  /\ (forall v, value r = Return v ->
        exists b, v = Some b /\ _properly_configured (self (after r)) = Some b)
  /\ (forall e, value r = Raise e ->
        _properly_configured (self (after r)) = None).
Proof.
  intros H. unfold_run. simpl. rewrite H. simpl.
  destruct (daemon_ping D (_clamd_socket (self w)) (clamd w)) as [[pong | e] d1];
    simpl.
  - destruct (py_eq_str pong "PONG"); simpl.
    + destruct (daemon_version D _ _) as [[v | e] d2]; simpl.
      * destruct (format1 _ _ v) as [msg | e]; simpl.
        -- repeat split; try reflexivity; intros ? E; inversion E; eauto.
        -- repeat split; try reflexivity; intros ? E; inversion E; eauto.
      * repeat split; try reflexivity; intros ? E; inversion E; eauto.
    + repeat split; try reflexivity; intros ? E; inversion E; eauto.
  - repeat split; try reflexivity; intros ? E; inversion E; eauto.
Qed.

(** Whatever the state of the probe, it leaves the filter and the socket
    alone, sends at most one ping and nothing to the filter, the scanner or
    the knowledge base, and never forgets a resolved state. *)

Lemma probe_frame w :
  let r := _is_properly_configured w in
  pings (calls r) <= 1
  /\ filter is_instream (calls r) = []
  /\ filter is_bloom (calls r) = []
  /\ filter is_kb_append (calls r) = []
  /\ _already_analyzed (self (after r)) = _already_analyzed (self w)
  /\ _clamd_socket (self (after r)) = _clamd_socket (self w)
  /\ (forall b, _properly_configured (self w) = Some b ->
        _properly_configured (self (after r)) = Some b)
  /\ (forall v, value r = Return v ->
        exists b, v = Some b /\ _properly_configured (self (after r)) = Some b).
Proof.
  destruct (_properly_configured (self w)) as [b |] eqn:E.
  - rewrite (probe_resolved w b E). simpl.
    repeat split; auto; try (intros; congruence).
    intros v Hv. inversion Hv. eauto.
  - destruct (probe_unresolved w E) as (Hp & Hi & Hb & Hk & Hf & Hs & Hv & _).
    cbv zeta. unfold pings. rewrite Hp. simpl.
    repeat split; auto. intros b Hb'. discriminate.
Qed.

(** *** The parser *)

Lemma parse_returns w raw r :
  _parse_scan_result_try raw = Return r ->
  _parse_scan_result raw w = mkRun (Return (Some r)) w [].
Proof.
  intros H. unfold_run. simpl. rewrite H. reflexivity.
Qed.

Lemma parse_logs w raw e msg :
  _parse_scan_result_try raw = Raise e ->
  format1 "Invalid response from clamd: " EmptyString raw = Return msg ->
  _parse_scan_result raw w = mkRun (Return None) w [OmDebug msg].
Proof.
  intros H Hm. unfold_run. simpl. rewrite H. simpl. rewrite Hm. reflexivity.
Qed.

Lemma parse_raises w raw e e' :
  _parse_scan_result_try raw = Raise e ->
  format1 "Invalid response from clamd: " EmptyString raw = Raise e' ->
  _parse_scan_result raw w = mkRun (Raise e') w [].
Proof.
  intros H Hm. unfold_run. simpl. rewrite H. simpl. rewrite Hm. reflexivity.
Qed.

Lemma parse_some_inv w raw r :
  value (_parse_scan_result raw w) = Return (Some r) ->
  _parse_scan_result_try raw = Return r.
Proof.
  destruct (_parse_scan_result_try raw) as [r' | e] eqn:E.
  - rewrite (parse_returns w raw r' E). simpl. congruence.
  - destruct (format1 "Invalid response from clamd: " EmptyString raw)
      as [msg | e'] eqn:Em.
    + rewrite (parse_logs w raw e msg E Em). simpl. discriminate.
    + rewrite (parse_raises w raw e e' E Em). simpl. discriminate.
Qed.

(** What the statements under [try:] compute when none of them raises. *)

Lemma parse_try_inv raw r :
  _parse_scan_result_try raw = Return r ->
  exists entry status sig,
    getitem_str raw "stream" = Return entry
    /\ getitem_int entry 0 = Return status
    /\ getitem_int entry 1 = Return sig
    /\ found r = py_eq_str status "FOUND"
    /\ signature r = sig.
Proof.
  unfold _parse_scan_result_try.
  destruct (getitem_str raw "stream") as [entry | e] eqn:He; [| discriminate].
  destruct (getitem_int entry 1) as [sig | e] eqn:H1; [| discriminate].
  destruct (getitem_int entry 0) as [status | e] eqn:H0; [| discriminate].
  intros H. inversion H. subst r. simpl.
  exists entry, status, sig. repeat split; auto.
Qed.

(** *** The scan of one response *)

Lemma scan_transport_error w request response e :
  scan_reply w response = Fail e ->
  _scan_http_response request response w
  = mkRun (Raise e) (scanned w response) [scan_call w response].
Proof.
  unfold scan_reply, scanned, scan_call. intros H.
  unfold_run. simpl. rewrite H. reflexivity.
Qed.

Lemma scan_found w request response raw r :
  scan_reply w response = Reply raw ->
  _parse_scan_result_try raw = Return r ->
  found r = true ->
  _scan_http_response request response w
  = mkRun (Return tt) (scanned w response)
          [scan_call w response;
           KbAppend "malware" (malware_info response (signature r))].
Proof.
  unfold scan_reply, scanned, scan_call. intros H Hr Hf.
  unfold_run. simpl. rewrite H. simpl. rewrite Hr. simpl. rewrite Hf.
  reflexivity.
Qed.

Lemma scan_clean w request response raw r :
  scan_reply w response = Reply raw ->
  _parse_scan_result_try raw = Return r ->
  found r = false ->
  _scan_http_response request response w
  = mkRun (Return tt) (scanned w response) [scan_call w response].
Proof.
  unfold scan_reply, scanned, scan_call. intros H Hr Hf.
  unfold_run. simpl. rewrite H. simpl. rewrite Hr. simpl. rewrite Hf.
  reflexivity.
Qed.

Lemma scan_malformed w request response raw e msg :
  scan_reply w response = Reply raw ->
  _parse_scan_result_try raw = Raise e ->
  format1 "Invalid response from clamd: " EmptyString raw = Return msg ->
  _scan_http_response request response w
  = mkRun (Raise AttributeError) (scanned w response)
          [scan_call w response; OmDebug msg].
Proof.
  unfold scan_reply, scanned, scan_call. intros H Hr Hm.
  unfold_run. simpl. rewrite H. simpl. rewrite Hr. simpl. rewrite Hm.
  reflexivity.
Qed.

Lemma scan_malformed_tuple w request response raw e e' :
  scan_reply w response = Reply raw ->
  _parse_scan_result_try raw = Raise e ->
  format1 "Invalid response from clamd: " EmptyString raw = Raise e' ->
  _scan_http_response request response w
  = mkRun (Raise e') (scanned w response) [scan_call w response].
Proof.
  unfold scan_reply, scanned, scan_call. intros H Hr Hm.
  unfold_run. simpl. rewrite H. simpl. rewrite Hr. simpl. rewrite Hm.
  reflexivity.
Qed.

(** A scan sends exactly one stream to the daemon, nothing to the filter,
    and leaves the plugin's fields as they are. *)

Lemma scan_frame w request response :
  let r := _scan_http_response request response w in
  dispatches (calls r) = 1
  /\ filter is_bloom (calls r) = []
  /\ filter is_ping (calls r) = []
  /\ self (after r) = self w.
Proof.
  destruct (scan_reply w response) as [raw | e] eqn:E.
  - destruct (_parse_scan_result_try raw) as [r | e] eqn:Er.
    + destruct (found r) eqn:Ef.
      * rewrite (scan_found w request response raw r E Er Ef). simpl. auto.
      * rewrite (scan_clean w request response raw r E Er Ef). simpl. auto.
    + destruct (format1 "Invalid response from clamd: " EmptyString raw)
        as [msg | e'] eqn:Em.
      * rewrite (scan_malformed w request response raw e msg E Er Em).
        simpl. auto.
      * rewrite (scan_malformed_tuple w request response raw e e' E Er Em).
        simpl. auto.
  - rewrite (scan_transport_error w request response e E). simpl. auto.
Qed.

(** *** The entry point *)

(** [grep], phase by phase, after the probe. *)

Lemma grep_run w request response :
  let p := _is_properly_configured w in
  let url := get_url response in
  grep request response w
  = match value p with
    | Raise e => mkRun (Raise e) (after p) (calls p)
    | Return configured =>
        if py_not configured then mkRun (Return tt) (after p) (calls p)
        else if negb (allowed_method request) || negb (allowed_code response)
        then mkRun (Return tt) (after p) (calls p)
        else if bloom_contains url (_already_analyzed (self (after p)))
        then mkRun (Return tt) (after p) (calls p ++ [BloomContains url])%list
        else
          let s := _scan_http_response request response (marked (after p) url) in
          mkRun (value s) (after s)
                (calls p ++ BloomContains url :: BloomAdd url :: calls s)%list
    end.
Proof.
  cbv zeta. unfold grep. unfold bind at 1.
  destruct (_is_properly_configured w) as [[configured | e] w1 evs1];
    [| reflexivity].
  cbn [value after calls].
  destruct (py_not configured); [simpl; rewrite app_nil_r; reflexivity |].
  destruct (negb (allowed_method request) || negb (allowed_code response))%bool;
    [simpl; rewrite app_nil_r; reflexivity |].
  unfold already_analyzed_contains, already_analyzed_add, marked.
  unfold bind, read, call, ret, assign. simpl.
  destruct (bloom_contains (get_url response) (_already_analyzed (self w1)));
    simpl.
  - reflexivity.
  - destruct (_scan_http_response request response _) as [v w2 evs2].
    reflexivity.
Qed.

Lemma dispatches_app (a b : list event) :
  dispatches (a ++ b) = dispatches a + dispatches b.
Proof.
  unfold dispatches. rewrite filter_app, length_app. reflexivity.
Qed.

Lemma pings_app (a b : list event) :
  pings (a ++ b) = pings a + pings b.
Proof.
  unfold pings. rewrite filter_app, length_app. reflexivity.
Qed.

Lemma dispatches_none (a : list event) :
  filter is_instream a = [] -> dispatches a = 0.
Proof.
  unfold dispatches. intros H. rewrite H. reflexivity.
Qed.

Lemma pings_none (a : list event) :
  filter is_ping a = [] -> pings a = 0.
Proof.
  unfold pings. intros H. rewrite H. reflexivity.
Qed.

(** What one call of [grep] does to the plugin and asks of the
    collaborators, whatever the daemon answers and however the call
    completes. *)

Lemma grep_frame w request response :
  let r := grep request response w in
  let url := get_url response in
  dispatches (calls r) <= 1
  /\ pings (calls r) <= 1
  /\ (0 < dispatches (calls r) ->
        bloom_contains url (_already_analyzed (self (after r))) = true)
  /\ (forall y, bloom_contains y (_already_analyzed (self w)) = true ->
        bloom_contains y (_already_analyzed (self (after r))) = true)
  /\ (bloom_contains url (_already_analyzed (self w)) = true ->
        dispatches (calls r) = 0)
  /\ (forall b, _properly_configured (self w) = Some b ->
        _properly_configured (self (after r)) = Some b /\ pings (calls r) = 0)
  /\ _clamd_socket (self (after r)) = _clamd_socket (self w).
Proof.
  cbv zeta. rewrite (grep_run w request response). cbv zeta.
  pose proof (probe_frame w) as (Hp & Hpi & Hpb & Hpk & Hpf & Hps & Hpc & Hpv).
  cbv zeta in *.
  assert (Hres : forall b, _properly_configured (self w) = Some b ->
                           pings (calls (_is_properly_configured w)) = 0).
  { intros b Hb. rewrite (probe_resolved w b Hb). reflexivity. }
  apply dispatches_none in Hpi.
  set (p := _is_properly_configured w) in *.
  assert (Hskip :
            dispatches (calls p) <= 1
            /\ pings (calls p) <= 1
            /\ (0 < dispatches (calls p) ->
                bloom_contains (get_url response)
                               (_already_analyzed (self (after p))) = true)
            /\ (forall y, bloom_contains y (_already_analyzed (self w)) = true ->
                bloom_contains y (_already_analyzed (self (after p))) = true)
            /\ (bloom_contains (get_url response) (_already_analyzed (self w))
                = true -> dispatches (calls p) = 0)
            /\ (forall b, _properly_configured (self w) = Some b ->
                _properly_configured (self (after p)) = Some b
                /\ pings (calls p) = 0)
            /\ _clamd_socket (self (after p)) = _clamd_socket (self w)).
  { rewrite Hpi, Hpf. repeat split; intros; eauto; lia. }
  destruct (value p) as [configured | e]; [| exact Hskip].
  destruct (py_not configured); [exact Hskip |].
  destruct (negb (allowed_method request) || negb (allowed_code response))%bool;
    [exact Hskip |].
  clear Hskip.
  destruct (bloom_contains (get_url response)
              (_already_analyzed (self (after p)))) eqn:Hseen.
  - cbn [value after calls].
    rewrite dispatches_app, pings_app, Hpi. rewrite Hpf in *.
    unfold pings, dispatches in *. simpl.
    repeat split; intros; eauto; try lia.
    rewrite (Hres b); auto.
  - pose proof (scan_frame (marked (after p) (get_url response)) request response)
      as (Hs1 & Hsb & Hsp & Hss).
    cbv zeta in *.
    set (s := _scan_http_response request response
                (marked (after p) (get_url response))) in *.
    cbn [value after calls]. apply pings_none in Hsp.
    change (BloomContains (get_url response) :: BloomAdd (get_url response)
              :: calls s)
      with ([BloomContains (get_url response); BloomAdd (get_url response)]
              ++ calls s)%list.
    rewrite !dispatches_app, !pings_app, Hpi, Hs1, Hsp, Hss.
    unfold marked. cbn [self _already_analyzed _properly_configured
                        _clamd_socket set__already_analyzed].
    rewrite Hpf in *.
    unfold pings, dispatches in *. simpl.
    repeat split; intros; eauto; try lia.
    + apply bloom_add_same.
    + apply bloom_add_mono. assumption.
    + congruence.
    + rewrite (Hres b); auto.
Qed.

(** *** The options *)

Lemma set_options_run w options_list :
  set_options options_list w
  = match option_value options_list "clamd_socket" with
    | Return v =>
        mkRun (Return tt) (mkWorld (set__clamd_socket v (self w)) (clamd w)) []
    | Raise e => mkRun (Raise e) w []
    end.
Proof.
  unfold set_options, bind, lift, assign. simpl.
  destruct (option_value options_list "clamd_socket"); reflexivity.
Qed.

(** *** The life of the process *)

(** Two things are kept by every call of an entry point: what the filter
    holds, and a resolved probe, which is then never asked again. *)

Lemma run_op_keeps w o :
  (forall y, bloom_contains y (_already_analyzed (self w)) = true ->
     bloom_contains y (_already_analyzed (self (fst (run_op o w)))) = true)
  /\ (forall b, _properly_configured (self w) = Some b ->
        _properly_configured (self (fst (run_op o w))) = Some b
        /\ pings (snd (run_op o w)) = 0).
Proof.
  destruct o as [request response | options_list |]; simpl.
  - pose proof (grep_frame w request response) as (_ & _ & _ & Hm & _ & Hc & _).
    cbv zeta in *. split; assumption.
  - rewrite set_options_run.
    destruct (option_value options_list "clamd_socket"); simpl; auto.
  - pose proof (probe_frame w) as (_ & _ & _ & _ & Hf & _ & Hc & _).
    cbv zeta in *. split.
    + intros y Hy. rewrite Hf. exact Hy.
    + intros b Hb. split; auto.
      rewrite (probe_resolved w b Hb). reflexivity.
Qed.

Lemma run_ops_keeps ops : forall w,
  (forall y, bloom_contains y (_already_analyzed (self w)) = true ->
     bloom_contains y (_already_analyzed (self (fst (run_ops ops w)))) = true)
  /\ (forall b, _properly_configured (self w) = Some b ->
        _properly_configured (self (fst (run_ops ops w))) = Some b
        /\ pings (snd (run_ops ops w)) = 0).
Proof.
  induction ops as [| o rest IH]; intros w.
  - simpl. auto.
  - simpl. destruct (run_op_keeps w o) as [Hm Hc].
    destruct (run_op o w) as [w1 evs1] eqn:E1. simpl in *.
    destruct (IH w1) as [Hm' Hc'].
    destruct (run_ops rest w1) as [w2 evs2] eqn:E2. simpl in *.
    split.
    + intros y Hy. auto.
    + intros b Hb. destruct (Hc b Hb) as [Hb1 Hp1].
      destruct (Hc' b Hb1) as [Hb2 Hp2].
      split; auto. rewrite pings_app. lia.
Qed.

(** X20: when the first call of the probe returns, it has sent exactly one
    ping, its answer is cached, and no later call of an entry point sends a
    ping or changes the answer. *)

Lemma probe_resolves_once w v :
  _properly_configured (self w) = None ->
  value (_is_properly_configured w) = Return v ->
  let r := _is_properly_configured w in
  pings (calls r) = 1
  /\ exists b,
       v = Some b
       /\ _properly_configured (self (after r)) = Some b
       /\ forall ops,
            pings (snd (run_ops ops (after r))) = 0
            /\ _is_properly_configured (fst (run_ops ops (after r)))
               = mkRun (Return (Some b)) (fst (run_ops ops (after r))) [].
Proof.
  intros Hnone Hv. cbv zeta.
  destruct (probe_unresolved w Hnone) as (Hp & _ & _ & _ & _ & _ & Hret & _).
  cbv zeta in *. split.
  - unfold pings. rewrite Hp. reflexivity.
  - destruct (Hret v Hv) as (b & Hb & Hc). exists b.
    split; [exact Hb |]. split; [exact Hc |].
    intros ops.
    destruct (run_ops_keeps ops (after (_is_properly_configured w))) as [_ Hk].
    destruct (Hk b Hc) as [Hk1 Hk2].
    split; [exact Hk2 |]. apply probe_resolved. exact Hk1.
Qed.

(** *** Occurrences in the description *)

Lemma string_app_assoc (a b c : string) : (a ++ b) ++ c = a ++ b ++ c.
Proof.
  induction a as [| ch a IH]; simpl; [reflexivity | rewrite IH; reflexivity].
Qed.

Lemma occurs_in_here (s a b : string) : occurs_in s (a ++ s ++ b).
Proof.
  exists a, b. reflexivity.
Qed.

Lemma occurs_in_later (s a t : string) : occurs_in s t -> occurs_in s (a ++ t).
Proof.
  intros (before & rest & E). exists (a ++ before), rest.
  rewrite E, string_app_assoc. reflexivity.
Qed.

Lemma desc_has_url (url : string) (sig : pyval) :
  occurs_in url (malware_desc url sig).
Proof.
  exists ("ClamAV identified malware at URL: " ++ dquote),
         (dquote ++ ", the matched signature name is " ++ dquote ++ py_str sig
                 ++ dquote ++ ".").
  unfold malware_desc. rewrite !string_app_assoc. reflexivity.
Qed.

Lemma desc_has_signature (url : string) (sig : pyval) :
  occurs_in (py_str sig) (malware_desc url sig).
Proof.
  exists ("ClamAV identified malware at URL: " ++ dquote ++ url ++ dquote
            ++ ", the matched signature name is " ++ dquote),
         (dquote ++ ".").
  unfold malware_desc. rewrite !string_app_assoc. reflexivity.
Qed.

(** ** The properties of the plugin *)

(** C3, as the parser has it: when [_parse_scan_result] returns a
    [ScanResult], [found] tells whether the first item of the ['stream']
    entry is ['FOUND'] and [signature] is the second item of that entry,
    whatever [found] is; so with [found] false the signature is [None]
    exactly when the daemon's second item is [None]. *)

Theorem parse_signature_is_second_item w raw r :
  value (_parse_scan_result raw w) = Return (Some r) ->
  exists entry status sig,
    getitem_str raw "stream" = Return entry
    /\ getitem_int entry 0 = Return status
    /\ getitem_int entry 1 = Return sig
    /\ found r = py_eq_str status "FOUND"
    /\ signature r = sig
    /\ (found r = false -> (signature r = PyNone <-> sig = PyNone)).
Proof.
  intros H. apply parse_some_inv in H.
  destruct (parse_try_inv raw r H) as (entry & status & sig & He & H0 & H1 & Hf & Hs).
  exists entry, status, sig. repeat split; auto; intros; congruence.
Qed.

(** C4: the three replies of the round trip.  The reply with the signature
    found gives [ScanResult(True, 'Eicar-Test-Signature')], the clean reply
    gives [ScanResult(False, None)], and the empty dictionary is a malformed
    response: the lookup of ['stream'] raises, the parser logs the invalid
    response and gives no [ScanResult]. *)

Theorem parse_round_trip w :
  _parse_scan_result eicar_found w
  = mkRun (Return (Some (mkScanResult true (PyStr "Eicar-Test-Signature")))) w []
  /\ _parse_scan_result stream_ok w
     = mkRun (Return (Some (mkScanResult false PyNone))) w []
  /\ _parse_scan_result_try (PyDict []) = Raise KeyError
  /\ _parse_scan_result (PyDict []) w
     = mkRun (Return None) w [OmDebug "Invalid response from clamd: {}"].
Proof.
  split; [| split; [| split]].
  - apply parse_returns. reflexivity.
  - apply parse_returns. reflexivity.
  - reflexivity.
  - apply (parse_logs w (PyDict []) KeyError); reflexivity.
Qed.

(** C8: the reporting gate.  When the daemon's reply is parsed into a
    [ScanResult], a scan whose result is not [found] sends nothing to the
    knowledge base, and a scan whose result is [found] sends it exactly one
    finding, under ['malware'], whose URL is the URL of the scanned response
    and whose description holds that URL and the signature. *)

Theorem report_gate w request response raw r :
  scan_reply w response = Reply raw ->
  value (_parse_scan_result raw (scanned w response)) = Return (Some r) ->
  let s := _scan_http_response request response w in
  (found r = false -> filter is_kb_append (calls s) = [])
  /\ (found r = true ->
      exists i,
        filter is_kb_append (calls s) = [KbAppend "malware" i]
        /\ info_url i = Some (get_url response)
        /\ occurs_in (get_url response) (info_desc i)
        /\ occurs_in (py_str (signature r)) (info_desc i)
        /\ (forall name, signature r = PyStr name ->
              occurs_in name (info_desc i))).
Proof.
  intros Hreply Hparse. apply parse_some_inv in Hparse. cbv zeta. split.
  - intros Hf. rewrite (scan_clean w request response raw r Hreply Hparse Hf).
    reflexivity.
  - intros Hf. rewrite (scan_found w request response raw r Hreply Hparse Hf).
    exists (malware_info response (signature r)). simpl.
    repeat split.
    + apply desc_has_url.
    + apply desc_has_signature.
    + intros name Hn.
      pose proof (desc_has_signature (get_url response) (signature r)) as Hd.
      rewrite Hn in Hd at 1. exact Hd.
Qed.

(** With the probe answering [True], an allowed method and code, and a URL
    the filter does not report, [grep] marks the URL and scans the response:
    its run is the probe's, the two filter operations, and the scan's. *)

Lemma grep_dispatches w request response :
  value (_is_properly_configured w) = Return (Some true) ->
  allowed_method request = true ->
  allowed_code response = true ->
  bloom_contains (get_url response) (_already_analyzed (self w)) = false ->
  let p := _is_properly_configured w in
  let url := get_url response in
  let s := _scan_http_response request response (marked (after p) url) in
  grep request response w
  = mkRun (value s) (after s)
          (calls p ++ BloomContains url :: BloomAdd url :: calls s)%list.
Proof.
  intros Hp Hm Hc Hu. cbv zeta.
  rewrite (grep_run w request response). cbv zeta.
  pose proof (probe_frame w) as (_ & _ & _ & _ & Hf & _).
  cbv zeta in Hf. rewrite Hp, Hm, Hc, Hf, Hu. reflexivity.
Qed.

(** C7: the method and status gate.  With a method that is not in
    [METHODS] or a code that is not in [HTTP_CODES], [grep] asks nothing of
    the filter, adds nothing to it and sends no stream to the daemon; and it
    returns whenever the probe before the gate does. *)

Theorem gate_skips_filter_and_scan w request response :
  allowed_method request = false \/ allowed_code response = false ->
  let r := grep request response w in
  filter is_bloom (calls r) = []
  /\ dispatches (calls r) = 0
  /\ _already_analyzed (self (after r)) = _already_analyzed (self w)
  /\ (forall v, value (_is_properly_configured w) = Return v ->
        value r = Return tt).
Proof.
  intros Hgate. cbv zeta. rewrite (grep_run w request response). cbv zeta.
  pose proof (probe_frame w) as (_ & Hpi & Hpb & _ & Hpf & _).
  cbv zeta in *. apply dispatches_none in Hpi.
  assert (Hg : (negb (allowed_method request) || negb (allowed_code response))%bool
               = true).
  { destruct Hgate as [H | H]; rewrite H; simpl; auto using orb_true_r. }
  rewrite Hg.
  destruct (value (_is_properly_configured w)) as [configured | e].
  - destruct (py_not configured); simpl; repeat split; auto.
  - simpl. repeat split; auto. intros v Hv. discriminate.
Qed.

(** C5: idempotent dedup.  Two calls of [grep] with the same request and
    response send at most one stream to the daemon; and exactly one when
    the filter has no false positives and has not received the URL, the
    probe answers [True] and the method and the code are allowed. *)

Theorem grep_twice_dispatches_once w request response :
  let r1 := grep request response w in
  let r2 := grep request response (after r1) in
  dispatches (calls r1 ++ calls r2) <= 1
  /\ (no_false_positives F ->
      forall received,
        _already_analyzed (self w) = bloom_of_list received ->
        ~ In (get_url response) received ->
        value (_is_properly_configured w) = Return (Some true) ->
        allowed_method request = true ->
        allowed_code response = true ->
        dispatches (calls r1) = 1 /\ dispatches (calls r2) = 0
        /\ dispatches (calls r1 ++ calls r2) = 1).
Proof.
  cbv zeta.
  pose proof (grep_frame w request response) as (H1 & _ & Hmark & _).
  pose proof (grep_frame (after (grep request response w)) request response)
    as (H2 & _ & _ & _ & Hseen & _).
  cbv zeta in *. rewrite dispatches_app. split.
  - destruct (dispatches (calls (grep request response w))) as [| n] eqn:E.
    + lia.
    + rewrite Hseen; [lia |]. apply Hmark. lia.
  - intros Hexact received Hf Hnew Hp Hm Hc.
    assert (Hu : bloom_contains (get_url response) (_already_analyzed (self w))
                 = false).
    { destruct (bloom_contains (get_url response) (_already_analyzed (self w)))
        eqn:E; [| reflexivity].
      rewrite Hf in E. apply Hexact in E. contradiction. }
    assert (E1 : dispatches (calls (grep request response w)) = 1).
    { rewrite (grep_dispatches w request response Hp Hm Hc Hu). simpl.
      pose proof (probe_frame w) as (_ & Hpi & _). cbv zeta in Hpi.
      apply dispatches_none in Hpi.
      pose proof (scan_frame
                    (marked (after (_is_properly_configured w)) (get_url response))
                    request response) as (Hs & _).
      cbv zeta in Hs.
      rewrite dispatches_app, Hpi.
      change (BloomContains (get_url response) :: BloomAdd (get_url response)
                :: ?l)
        with ([BloomContains (get_url response); BloomAdd (get_url response)]
                ++ l)%list.
      rewrite dispatches_app, Hs. reflexivity. }
    rewrite E1 in *. rewrite Hseen; [auto |]. apply Hmark. lia.
Qed.

(** C9: a failed scan is never retried.  Once [grep] has sent the stream
    of a response to the daemon, whatever came of it (the daemon's client
    raised, the reply was malformed, or neither), the URL is in the filter,
    it stays there through every later call of an entry point, and no later
    call of [grep] for that URL sends a stream again. *)

Theorem dispatched_url_never_scanned_again w request response :
  let r := grep request response w in
  0 < dispatches (calls r) ->
  forall ops request' response',
    get_url response' = get_url response ->
    let w' := fst (run_ops ops (after r)) in
    bloom_contains (get_url response) (_already_analyzed (self w')) = true
    /\ dispatches (calls (grep request' response' w')) = 0.
Proof.
  cbv zeta. intros Hd ops request' response' Hurl.
  pose proof (grep_frame w request response) as (_ & _ & Hmark & _).
  cbv zeta in Hmark. specialize (Hmark Hd).
  destruct (run_ops_keeps ops (after (grep request response w))) as [Hkeep _].
  specialize (Hkeep _ Hmark).
  split; [exact Hkeep |].
  pose proof (grep_frame (fst (run_ops ops (after (grep request response w))))
                         request' response') as (_ & _ & _ & _ & Hseen & _).
  cbv zeta in Hseen. apply Hseen. rewrite Hurl. exact Hkeep.
Qed.

(** C10: [set_options] assigns the socket path and nothing else: the state
    of the probe, the filter and the daemon are as before, and no
    collaborator is called.  After the probe is resolved, no sequence of
    calls that starts with [set_options] sends a ping, and the probe keeps
    answering what it resolved to. *)

Theorem set_options_frame w options_list :
  let r := set_options options_list w in
  _properly_configured (self (after r)) = _properly_configured (self w)
  /\ _already_analyzed (self (after r)) = _already_analyzed (self w)
  /\ clamd (after r) = clamd w
  /\ calls r = []
  /\ (forall v, option_value options_list "clamd_socket" = Return v ->
        value r = Return tt /\ _clamd_socket (self (after r)) = v)
  /\ (forall b, _properly_configured (self w) = Some b ->
      forall ops,
        let w' := fst (run_ops (SetOptions options_list :: ops) w) in
        pings (snd (run_ops (SetOptions options_list :: ops) w)) = 0
        /\ _properly_configured (self w') = Some b
        /\ _is_properly_configured w' = mkRun (Return (Some b)) w' []).
Proof.
  cbv zeta. rewrite set_options_run. repeat split.
  - destruct (option_value options_list "clamd_socket"); reflexivity.
  - destruct (option_value options_list "clamd_socket"); reflexivity.
  - destruct (option_value options_list "clamd_socket"); reflexivity.
  - destruct (option_value options_list "clamd_socket"); reflexivity.
  - rewrite H. reflexivity.
  - rewrite H. reflexivity.
  - destruct (run_ops_keeps (SetOptions options_list :: ops) w) as [_ Hc].
    apply (Hc b H).
  - destruct (run_ops_keeps (SetOptions options_list :: ops) w) as [_ Hc].
    apply (Hc b H).
  - destruct (run_ops_keeps (SetOptions options_list :: ops) w) as [_ Hc].
    apply probe_resolved. apply (Hc b H).
Qed.

(** C2, as the code has it: an exception raised by the daemon's client
    during the scan is not caught and not logged by [grep]: it is the
    exception [grep] raises.  Nothing is sent to the knowledge base, the URL
    was added to the filter before, and a later call for the same response
    sends no stream. *)

Theorem transport_error_propagates w request response e :
  let p := _is_properly_configured w in
  let url := get_url response in
  value p = Return (Some true) ->
  allowed_method request = true ->
  allowed_code response = true ->
  bloom_contains url (_already_analyzed (self w)) = false ->
  scan_reply (marked (after p) url) response = Fail e ->
  let r := grep request response w in
  value r = Raise e
  /\ calls r = (calls p ++ [BloomContains url; BloomAdd url;
                            scan_call (marked (after p) url) response])%list
  /\ filter is_kb_append (calls r) = []
  /\ bloom_contains url (_already_analyzed (self (after r))) = true
  /\ dispatches (calls (grep request response (after r))) = 0.
Proof.
  cbv zeta. intros Hp Hm Hc Hu He.
  pose proof (grep_frame w request response) as (_ & _ & Hmark & _).
  pose proof (grep_frame (after (grep request response w)) request response)
    as (_ & _ & _ & _ & Hseen & _).
  cbv zeta in *.
  rewrite (grep_dispatches w request response Hp Hm Hc Hu) in *. cbv zeta in *.
  rewrite (scan_transport_error _ request response e He) in *. simpl in *.
  pose proof (probe_frame w) as (_ & Hpi & _ & Hpk & _). cbv zeta in *.
  assert (Hd : 0 < dispatches
                     (calls (_is_properly_configured w)
                      ++ [BloomContains (get_url response);
                          BloomAdd (get_url response);
                          scan_call (marked (after (_is_properly_configured w))
                                            (get_url response)) response])).
  { rewrite dispatches_app. unfold scan_call. simpl. unfold dispatches at 2.
    simpl. lia. }
  repeat split; auto.
  rewrite filter_app, Hpk. reflexivity.
Qed.

(** ** Further properties *)

Lemma py_eq_str_true (v : pyval) (s : string) :
  py_eq_str v s = true <-> v = PyStr s.
Proof.
  destruct v; simpl; try (split; [discriminate | intros E; discriminate E]).
  rewrite String.eqb_eq. split; intros E.
  - rewrite E. reflexivity.
  - inversion E. reflexivity.
Qed.

(** X1: [_connection_test] never raises.  It sends one ping through the
    configured socket, answers [True] exactly when the daemon's reply is the
    string ['PONG'] (and [False] when the client raised or replied anything
    else), and leaves the fields of the plugin as they are. *)

Theorem connection_test_never_raises w :
  let r := _connection_test w in
  let answer := daemon_ping D (_clamd_socket (self w)) (clamd w) in
  (exists b, value r = Return b
             /\ (b = true <-> fst answer = Reply (PyStr "PONG")))
  /\ calls r = [Ping (_clamd_socket (self w))]
  /\ self (after r) = self w
  /\ clamd (after r) = snd answer.
Proof.
  cbv zeta. unfold_run. simpl.
  destruct (daemon_ping D (_clamd_socket (self w)) (clamd w)) as [[pong | e] d1];
    simpl.
  - split; [| auto]. exists (py_eq_str pong "PONG"). split; [reflexivity |].
    rewrite py_eq_str_true. split; intros E.
    + rewrite E. reflexivity.
    + inversion E. reflexivity.
  - split; [| auto]. exists false. split; [reflexivity |].
    split; discriminate.
Qed.

(** X2: a failed health check disables the plugin.  When the probe is not
    resolved and the ping raises or is answered by anything but ['PONG'],
    [_is_properly_configured] returns [False] and caches it, sends no
    version command, and sends the output manager one error that names the
    configured socket. *)

Theorem probe_failure_disables w :
  _properly_configured (self w) = None ->
  fst (daemon_ping D (_clamd_socket (self w)) (clamd w)) <> Reply (PyStr "PONG") ->
  _is_properly_configured w
  = mkRun (Return (Some false))
          (mkWorld (set__properly_configured (Some false) (self w))
                   (snd (daemon_ping D (_clamd_socket (self w)) (clamd w))))
          [Ping (_clamd_socket (self w));
           OmError ("The ClamAV plugin failed to connect to clamd using the"
                    ++ " provided unix socket: " ++ dquote
                    ++ _clamd_socket (self w) ++ dquote
                    ++ ". Please verify your configuration and try again.")].
Proof.
  intros H Hping. unfold_run. simpl. rewrite H. simpl.
  destruct (daemon_ping D (_clamd_socket (self w)) (clamd w)) as [[pong | e] d1];
    simpl in *.
  - destruct (py_eq_str pong "PONG") eqn:E.
    + apply py_eq_str_true in E. subst pong. contradiction.
    + reflexivity.
  - reflexivity.
Qed.

(** X3: a successful health check enables the plugin.  When the probe is
    not resolved, the ping is answered by ['PONG'] and the version command
    by a value [%s] can render, [_is_properly_configured] returns [True]
    and caches it, after one ping, one version command and one
    information message with the version. *)

Theorem probe_success_enables w v msg :
  _properly_configured (self w) = None ->
  let pong := daemon_ping D (_clamd_socket (self w)) (clamd w) in
  let ver := daemon_version D (_clamd_socket (self w)) (snd pong) in
  fst pong = Reply (PyStr "PONG") ->
  fst ver = Reply v ->
  format1 "Using " " for scanning HTTP response bodies." v = Return msg ->
  _is_properly_configured w
  = mkRun (Return (Some true))
          (mkWorld (set__properly_configured (Some true) (self w)) (snd ver))
          [Ping (_clamd_socket (self w));
           Version (_clamd_socket (self w));
           OmInformation msg].
Proof.
  cbv zeta. intros H Hping Hver Hmsg. unfold_run. simpl. rewrite H. simpl.
  destruct (daemon_ping D (_clamd_socket (self w)) (clamd w)) as [pong d1].
  simpl in *. rewrite Hping. simpl.
  destruct (daemon_version D (_clamd_socket (self w)) d1) as [ver d2].
  simpl in *. rewrite Hver. simpl. rewrite Hmsg. reflexivity.
Qed.

(** X4: the health check comes before the gate.  While the probe is not
    resolved, every call of [grep] sends exactly one ping through the
    configured socket, whatever the method of the request and the code of
    the response. *)

Theorem unresolved_grep_pings_once w request response :
  _properly_configured (self w) = None ->
  filter is_ping (calls (grep request response w))
  = [Ping (_clamd_socket (self w))].
Proof.
  intros H. rewrite (grep_run w request response). cbv zeta.
  destruct (probe_unresolved w H) as (Hp & _).
  cbv zeta in Hp.
  set (p := _is_properly_configured w) in *.
  destruct (value p) as [configured | e]; [| exact Hp].
  destruct (py_not configured); [exact Hp |].
  destruct (negb (allowed_method request) || negb (allowed_code response))%bool;
    [exact Hp |].
  destruct (bloom_contains (get_url response)
              (_already_analyzed (self (after p)))).
  - cbn [calls]. rewrite filter_app, Hp. reflexivity.
  - pose proof (scan_frame (marked (after p) (get_url response)) request response)
      as (_ & _ & Hsp & _).
    cbv zeta in Hsp. cbn [calls]. rewrite filter_app, Hp. simpl.
    rewrite Hsp. reflexivity.
Qed.

(** X5: a reply that is a tuple makes the parser raise.  The lookup of
    ['stream'] raises on a tuple, and in the handler ['...%s' % result]
    takes the tuple for the argument list: unless it has exactly one item,
    the formatting raises [TypeError], out of [_parse_scan_result], and
    nothing is logged. *)

Theorem parse_of_tuple_raises w items :
  length items <> 1 ->
  _parse_scan_result (PyTuple items) w = mkRun (Raise TypeError) w [].
Proof.
  intros Hlen. apply (parse_raises w (PyTuple items) TypeError TypeError).
  - reflexivity.
  - destruct items as [| x [| y rest]]; simpl in *;
      [reflexivity | contradiction | reflexivity].
Qed.

(** X6: apart from those tuples, the parser never raises and never changes
    the plugin or the daemon: it returns a [ScanResult] without a log, or
    it returns [None] after exactly one debug message. *)


(** X7: the expected shape, and a little more.  When the value under
    ['stream'] is a tuple or a list with at least two items, the parser
    returns a [ScanResult] whose signature is the second item and whose
    [found] is true exactly when the first item is the string ['FOUND'];
    further items are ignored and nothing is logged. *)

Theorem parse_of_stream_entry w entries entry status sig rest :
  dict_lookup (fun k => py_eq_str k "stream") entries = Some entry ->
  entry = PyTuple (status :: sig :: rest) \/ entry = PyList (status :: sig :: rest) ->
  _parse_scan_result (PyDict entries) w
  = mkRun (Return (Some (mkScanResult (py_eq_str status "FOUND") sig))) w []
  /\ (py_eq_str status "FOUND" = true <-> status = PyStr "FOUND").
Proof.
  intros Hlook Hentry. split; [| apply py_eq_str_true].
  apply parse_returns. unfold _parse_scan_result_try. simpl. rewrite Hlook.
  destruct Hentry as [E | E]; rewrite E; reflexivity.
Qed.

(** X8: a string under ['stream'] is subscripted like a tuple.  When it has
    two characters or more, the parser returns a [ScanResult] that is not
    [found] and whose signature is the second character; no log tells it
    from a clean reply. *)

Theorem parse_of_string_entry w entries c0 c1 s :
  dict_lookup (fun k => py_eq_str k "stream") entries
  = Some (PyStr (String c0 (String c1 s))) ->
  _parse_scan_result (PyDict entries) w
  = mkRun (Return (Some (mkScanResult false (PyStr (String c1 EmptyString)))))
          w [].
Proof.
  intros Hlook. apply parse_returns.
  unfold _parse_scan_result_try. simpl. rewrite Hlook. simpl.
  destruct (Ascii.eqb c0 "F"); reflexivity.
Qed.

(** X9: a URL the filter reports is skipped.  With the probe resolved to
    [True] and an allowed method and code, [grep] asks the filter once and
    returns: nothing is added, no stream is sent, and the plugin and the
    daemon are as before. *)

Theorem seen_url_is_skipped w request response :
  _properly_configured (self w) = Some true ->
  allowed_method request = true ->
  allowed_code response = true ->
  bloom_contains (get_url response) (_already_analyzed (self w)) = true ->
  grep request response w
  = mkRun (Return tt) w [BloomContains (get_url response)].
Proof.
  intros Hc Hm Hcode Hseen.
  rewrite (grep_run w request response). cbv zeta.
  rewrite (probe_resolved w true Hc). cbn [value after calls].
  rewrite Hm, Hcode, Hseen. reflexivity.
Qed.

(** X10: the whole path of a detection.  With the probe resolved to [True],
    an allowed method and code, a URL the filter does not report and a
    reply parsed into a [found] result, [grep] returns after four calls in
    this order: the filter is asked, the URL is added, the body is sent to
    the daemon, and one finding goes to the knowledge base under
    ['malware'], titled ['Malware identified'], with the id and the URL of
    the response and the name of the plugin. *)

Theorem grep_reports_found w request response raw r :
  _properly_configured (self w) = Some true ->
  allowed_method request = true ->
  allowed_code response = true ->
  bloom_contains (get_url response) (_already_analyzed (self w)) = false ->
  scan_reply (marked w (get_url response)) response = Reply raw ->
  _parse_scan_result_try raw = Return r ->
  found r = true ->
  exists i,
    grep request response w
    = mkRun (Return tt) (scanned (marked w (get_url response)) response)
            [BloomContains (get_url response);
             BloomAdd (get_url response);
             Instream (_clamd_socket (self w)) (get_body response);
             KbAppend "malware" i]
    /\ info_name i = "Malware identified"
    /\ info_desc i = malware_desc (get_url response) (signature r)
    /\ info_response_id i = id response
    /\ info_plugin_name i = "clamav"
    /\ info_url i = Some (get_url response).
Proof.
  intros Hc Hm Hcode Hnew Hreply Hparse Hfound.
  exists (malware_info response (signature r)).
  split; [| repeat split].
  assert (Hp : value (_is_properly_configured w) = Return (Some true)).
  { rewrite (probe_resolved w true Hc). reflexivity. }
  rewrite (grep_dispatches w request response Hp Hm Hcode Hnew). cbv zeta.
  rewrite (probe_resolved w true Hc). cbn [value after calls].
  rewrite (scan_found _ request response raw r Hreply Hparse Hfound).
  reflexivity.
Qed.

(** X11: a disabled plugin is inert.  Once the probe is resolved to
    [False], no call of an entry point calls a collaborator again (no ping,
    no scan, no filter operation, no message, no finding), and the state of
    the probe, the filter and the daemon stay as they are. *)

Theorem disabled_plugin_is_inert w ops :
  _properly_configured (self w) = Some false ->
  snd (run_ops ops w) = []
  /\ _properly_configured (self (fst (run_ops ops w))) = Some false
  /\ _already_analyzed (self (fst (run_ops ops w))) = _already_analyzed (self w)
  /\ clamd (fst (run_ops ops w)) = clamd w.
Proof.
  revert w. induction ops as [| o rest IH]; intros w H.
  - simpl. auto.
  - assert (Hop : snd (run_op o w) = []
                  /\ _properly_configured (self (fst (run_op o w))) = Some false
                  /\ _already_analyzed (self (fst (run_op o w)))
                     = _already_analyzed (self w)
                  /\ clamd (fst (run_op o w)) = clamd w).
    { destruct o as [request response | options_list |]; simpl.
      - rewrite (grep_run w request response). cbv zeta.
        rewrite (probe_resolved w false H). simpl. auto.
      - rewrite set_options_run.
        destruct (option_value options_list "clamd_socket"); simpl; auto.
      - rewrite (probe_resolved w false H). simpl. auto. }
    destruct Hop as (He & Hc & Hf & Hd).
    simpl. destruct (run_op o w) as [w1 evs1]. simpl in *.
    destruct (IH w1 Hc) as (He' & Hc' & Hf' & Hd').
    destruct (run_ops rest w1) as [w2 evs2]. simpl in *.
    subst evs1 evs2. repeat split; congruence.
Qed.

(** *** Whole runs *)

Lemma added_app (a b : list event) : added (a ++ b) = (added a ++ added b)%list.
Proof.
  unfold added. apply flat_map_app.
Qed.

Lemma findings_app (a b : list event) : findings (a ++ b) = findings a + findings b.
Proof.
  unfold findings. rewrite filter_app, length_app. reflexivity.
Qed.

Lemma added_none (evs : list event) : filter is_bloom evs = [] -> added evs = [].
Proof.
  induction evs as [| e evs IH]; [reflexivity |].
  destruct e; simpl; try exact IH; discriminate.
Qed.

Lemma run_ops_cons (o : op) (rest : list op) w :
  fst (run_ops (o :: rest) w) = fst (run_ops rest (fst (run_op o w)))
  /\ snd (run_ops (o :: rest) w)
     = (snd (run_op o w) ++ snd (run_ops rest (fst (run_op o w))))%list.
Proof.
  simpl. destruct (run_op o w) as [w1 evs1]. simpl.
  destruct (run_ops rest w1) as [w2 evs2]. simpl. auto.
Qed.

Lemma scan_shape w request response :
  let s := _scan_http_response request response w in
  added (calls s) = [] /\ findings (calls s) <= 1.
Proof.
  destruct (scan_reply w response) as [raw | e] eqn:E.
  - destruct (_parse_scan_result_try raw) as [r | e] eqn:Er.
    + destruct (found r) eqn:Ef.
      * rewrite (scan_found w request response raw r E Er Ef).
        unfold findings. simpl. auto.
      * rewrite (scan_clean w request response raw r E Er Ef).
        unfold findings. simpl. auto.
    + destruct (format1 "Invalid response from clamd: " EmptyString raw)
        as [msg | e'] eqn:Em.
      * rewrite (scan_malformed w request response raw e msg E Er Em).
        unfold findings. simpl. auto.
      * rewrite (scan_malformed_tuple w request response raw e e' E Er Em).
        unfold findings. simpl. auto.
  - rewrite (scan_transport_error w request response e E).
    unfold findings. simpl. auto.
Qed.

(** One call of an entry point either adds nothing to the filter, scans
    nothing and reports nothing, or adds one URL the filter did not report,
    scans once and reports at most once. *)

Lemma run_op_shape w o :
  let w' := fst (run_op o w) in
  let evs := snd (run_op o w) in
  (added evs = [] /\ dispatches evs = 0 /\ findings evs = 0
   /\ _already_analyzed (self w') = _already_analyzed (self w))
  \/ (exists url,
        added evs = [url] /\ dispatches evs = 1 /\ findings evs <= 1
        /\ bloom_contains url (_already_analyzed (self w)) = false
        /\ _already_analyzed (self w') = bloom_add url (_already_analyzed (self w))).
Proof.
  cbv zeta.
  pose proof (probe_frame w) as (_ & Hpi & Hpb & Hpk & Hpf & _).
  cbv zeta in *.
  assert (Hquiet : added (calls (_is_properly_configured w)) = []
                   /\ dispatches (calls (_is_properly_configured w)) = 0
                   /\ findings (calls (_is_properly_configured w)) = 0
                   /\ _already_analyzed (self (after (_is_properly_configured w)))
                      = _already_analyzed (self w)).
  { unfold findings. rewrite Hpk. auto using added_none, dispatches_none. }
  destruct o as [request response | options_list |]; simpl.
  - rewrite (grep_run w request response). cbv zeta.
    set (p := _is_properly_configured w) in *.
    destruct Hquiet as (Ha & Hd & Hk & Hf).
    destruct (value p) as [configured | e]; [| left; auto].
    destruct (py_not configured); [left; auto |].
    destruct (negb (allowed_method request) || negb (allowed_code response))%bool;
      [left; auto |].
    destruct (bloom_contains (get_url response)
                (_already_analyzed (self (after p)))) eqn:Hseen.
    + left. cbn [value after calls].
      rewrite added_app, dispatches_app, findings_app, Ha, Hd, Hk. auto.
    + right. exists (get_url response).
      pose proof (scan_frame (marked (after p) (get_url response))
                             request response) as (Hs1 & _ & _ & Hss).
      pose proof (scan_shape (marked (after p) (get_url response))
                             request response) as (Hsa & Hsk).
      cbv zeta in *.
      set (s := _scan_http_response request response
                  (marked (after p) (get_url response))) in *.
      cbn [value after calls].
      change (BloomContains (get_url response) :: BloomAdd (get_url response)
                :: calls s)
        with ([BloomContains (get_url response); BloomAdd (get_url response)]
                ++ calls s)%list.
      rewrite !added_app, !dispatches_app, !findings_app, Ha, Hd, Hk, Hsa, Hs1, Hss.
      rewrite Hf in Hseen. unfold marked. simpl. rewrite Hf.
      repeat split; auto.
  - left. rewrite set_options_run.
    destruct (option_value options_list "clamd_socket"); simpl; auto.
  - left. exact Hquiet.
Qed.

(** X12: no URL is added twice.  Over any sequence of calls of the entry
    points, the URLs added to the filter are pairwise distinct, and none of
    them is a URL the filter reported at the start. *)

Theorem added_urls_are_distinct ops : forall w,
  NoDup (added (snd (run_ops ops w)))
  /\ (forall url, bloom_contains url (_already_analyzed (self w)) = true ->
        ~ In url (added (snd (run_ops ops w)))).
Proof.
  induction ops as [| o rest IH]; intros w.
  - simpl. split; [constructor | auto].
  - destruct (run_ops_cons o rest w) as [_ Hevs]. rewrite Hevs, added_app.
    destruct (IH (fst (run_op o w))) as [Hnd Hout].
    destruct (run_op_shape w o) as [(Ha & _ & _ & Hf) | (u & Ha & _ & _ & Hnew & Hf)];
      cbv zeta in *; rewrite Ha; simpl.
    + rewrite Hf in Hout. split; assumption.
    + rewrite Hf in Hout. split.
      * constructor; [| exact Hnd]. apply Hout. apply bloom_add_same.
      * intros url Hurl [E | Hin].
        -- subst u. congruence.
        -- apply (Hout url); [apply bloom_add_mono; exact Hurl | exact Hin].
Qed.

(** X13: every added URL is scanned, and every finding comes from a scan.
    Over any sequence of calls of the entry points, the number of streams
    sent to the daemon is the number of URLs added to the filter, and the
    knowledge base gets at most one finding per stream. *)

Theorem every_added_url_is_scanned ops : forall w,
  dispatches (snd (run_ops ops w)) = length (added (snd (run_ops ops w)))
  /\ findings (snd (run_ops ops w)) <= dispatches (snd (run_ops ops w)).
Proof.
  induction ops as [| o rest IH]; intros w.
  - simpl. auto.
  - destruct (run_ops_cons o rest w) as [_ Hevs].
    rewrite Hevs, added_app, dispatches_app, findings_app, length_app.
    destruct (IH (fst (run_op o w))) as [Hd Hk].
    destruct (run_op_shape w o) as [(Ha & Hd1 & Hk1 & _) | (u & Ha & Hd1 & Hk1 & _)];
      cbv zeta in *; rewrite Ha, Hd1; simpl; lia.
Qed.

Lemma run_ops_filter ops : forall w received,
  _already_analyzed (self w) = bloom_of_list received ->
  _already_analyzed (self (fst (run_ops ops w)))
  = bloom_of_list (rev (added (snd (run_ops ops w))) ++ received)%list.
Proof.
  induction ops as [| o rest IH]; intros w received H.
  - simpl. exact H.
  - destruct (run_ops_cons o rest w) as [Hw Hevs].
    rewrite Hw, Hevs, added_app, rev_app_distr, <- app_assoc.
    destruct (run_op_shape w o) as [(Ha & _ & _ & Hf) | (u & Ha & _ & _ & _ & Hf)];
      cbv zeta in *; rewrite Ha; simpl.
    + apply IH. rewrite Hf. exact H.
    + apply IH. rewrite Hf, H. reflexivity.
Qed.

(** X14: the filter holds what was added.  When the filter starts as the
    filter that received [received], after any sequence of calls of the
    entry points it is the filter that received, after them, the URLs the
    calls added. *)

Theorem filter_holds_added_urls ops w received :
  _already_analyzed (self w) = bloom_of_list received ->
  _already_analyzed (self (fst (run_ops ops w)))
  = bloom_of_list (rev (added (snd (run_ops ops w))) ++ received)%list.
Proof.
  intros H. apply run_ops_filter. exact H.
Qed.

Lemma run_op_quiet w o :
  _properly_configured (self (fst (run_op o w))) <> Some true ->
  dispatches (snd (run_op o w)) = 0
  /\ filter is_bloom (snd (run_op o w)) = []
  /\ findings (snd (run_op o w)) = 0.
Proof.
  pose proof (probe_frame w) as (_ & Hpi & Hpb & Hpk & _ & _ & _ & Hpv).
  cbv zeta in *.
  assert (Hquiet : dispatches (calls (_is_properly_configured w)) = 0
                   /\ filter is_bloom (calls (_is_properly_configured w)) = []
                   /\ findings (calls (_is_properly_configured w)) = 0).
  { unfold findings. rewrite Hpk. auto using dispatches_none. }
  destruct o as [request response | options_list |]; simpl.
  - rewrite (grep_run w request response). cbv zeta.
    set (p := _is_properly_configured w) in *.
    destruct (value p) as [configured | e]; [| intros _; exact Hquiet].
    destruct (Hpv configured eq_refl) as (b & Hb & Hc). subst configured.
    destruct b; simpl; [| intros _; exact Hquiet].
    destruct (negb (allowed_method request) || negb (allowed_code response))%bool;
      [intros Hnot; contradiction |].
    destruct (bloom_contains (get_url response)
                (_already_analyzed (self (after p)))).
    + cbn [after]. intros Hnot. contradiction.
    + pose proof (scan_frame (marked (after p) (get_url response))
                             request response) as (_ & _ & _ & Hss).
      cbv zeta in Hss. cbn [after]. rewrite Hss. unfold marked. simpl.
      intros Hnot. contradiction.
  - intros _. rewrite set_options_run.
    destruct (option_value options_list "clamd_socket"); simpl; auto.
  - intros _. exact Hquiet.
Qed.

(** X15: no scan without a successful health check.  If, after a sequence
    of calls of the entry points, the probe is not resolved to [True], then
    no call of the sequence sent a stream to the daemon, asked or changed
    the filter, or reported a finding. *)

Theorem no_scan_without_health_check ops : forall w,
  _properly_configured (self (fst (run_ops ops w))) <> Some true ->
  dispatches (snd (run_ops ops w)) = 0
  /\ filter is_bloom (snd (run_ops ops w)) = []
  /\ findings (snd (run_ops ops w)) = 0.
Proof.
  induction ops as [| o rest IH]; intros w Hend.
  - simpl. auto.
  - destruct (run_ops_cons o rest w) as [Hw Hevs].
    rewrite Hw in Hend. rewrite Hevs.
    assert (Hmid : _properly_configured (self (fst (run_op o w))) <> Some true).
    { intros Hmid.
      destruct (run_ops_keeps rest (fst (run_op o w))) as [_ Hkeep].
      destruct (Hkeep true Hmid) as [Hkept _]. contradiction. }
    destruct (run_op_quiet w o Hmid) as (Hd1 & Hb1 & Hk1).
    destruct (IH (fst (run_op o w)) Hend) as (Hd2 & Hb2 & Hk2).
    rewrite dispatches_app, findings_app, filter_app, Hd1, Hd2, Hb1, Hb2, Hk1, Hk2.
    auto.
Qed.

Lemma grep_scans_unseen w request response :
  value (_is_properly_configured w) = Return (Some true) ->
  allowed_method request = true ->
  allowed_code response = true ->
  bloom_contains (get_url response) (_already_analyzed (self w)) = false ->
  dispatches (calls (grep request response w)) = 1
  /\ added (calls (grep request response w)) = [get_url response].
Proof.
  intros Hp Hm Hc Hu.
  rewrite (grep_dispatches w request response Hp Hm Hc Hu). cbv zeta.
  cbn [calls].
  pose proof (probe_frame w) as (_ & Hpi & Hpb & _). cbv zeta in *.
  pose proof (scan_frame (marked (after (_is_properly_configured w))
                                 (get_url response)) request response)
    as (Hs & _).
  pose proof (scan_shape (marked (after (_is_properly_configured w))
                                 (get_url response)) request response)
    as (Hsa & _).
  cbv zeta in *.
  change (BloomContains (get_url response) :: BloomAdd (get_url response) :: ?l)
    with ([BloomContains (get_url response); BloomAdd (get_url response)]
            ++ l)%list.
  rewrite !dispatches_app, !added_app, Hs, Hsa.
  rewrite (dispatches_none _ Hpi), (added_none _ Hpb). auto.
Qed.

(** X16: with a filter without false positives, only the URLs that were
    added are skipped.  After any sequence of calls of the entry points, a
    URL that the filter did not receive before and that no call added is
    scanned by the next [grep] for it, when the probe answers [True] and
    the method and the code are allowed. *)

Theorem fresh_url_is_scanned ops w received request response :
  no_false_positives F ->
  _already_analyzed (self w) = bloom_of_list received ->
  ~ In (get_url response) received ->
  ~ In (get_url response) (added (snd (run_ops ops w))) ->
  value (_is_properly_configured (fst (run_ops ops w))) = Return (Some true) ->
  allowed_method request = true ->
  allowed_code response = true ->
  dispatches (calls (grep request response (fst (run_ops ops w)))) = 1
  /\ added (calls (grep request response (fst (run_ops ops w))))
     = [get_url response].
Proof.
  intros Hexact Hf Hold Hrun Hp Hm Hc.
  apply grep_scans_unseen; auto.
  rewrite (run_ops_filter ops w received Hf).
  destruct (bloom_contains (get_url response)
              (bloom_of_list (rev (added (snd (run_ops ops w))) ++ received)))
    eqn:E; [| reflexivity].
  apply Hexact in E. apply in_app_or in E. destruct E as [E | E].
  - apply in_rev in E. contradiction.
  - contradiction.
Qed.

(** *** The socket *)

Lemma probe_sockets w :
  Forall (goes_through (_clamd_socket (self w)))
         (calls (_is_properly_configured w)).
Proof.
  destruct (_properly_configured (self w)) as [b |] eqn:H.
  - rewrite (probe_resolved w b H). constructor.
  - unfold_run. simpl. rewrite H. simpl.
    destruct (daemon_ping D (_clamd_socket (self w)) (clamd w))
      as [[pong | e] d1]; simpl.
    + destruct (py_eq_str pong "PONG"); simpl.
      * destruct (daemon_version D _ _) as [[v | e] d2]; simpl.
        -- destruct (format1 _ _ v) as [msg | e]; simpl;
             repeat constructor; intros s' E; inversion E; reflexivity.
        -- repeat constructor; intros s' E; inversion E; reflexivity.
      * repeat constructor; intros s' E; inversion E; reflexivity.
    + repeat constructor; intros s' E; inversion E; reflexivity.
Qed.

Lemma scan_sockets w request response :
  Forall (goes_through (_clamd_socket (self w)))
         (calls (_scan_http_response request response w)).
Proof.
  destruct (scan_reply w response) as [raw | e] eqn:E.
  - destruct (_parse_scan_result_try raw) as [r | e] eqn:Er.
    + destruct (found r) eqn:Ef.
      * rewrite (scan_found w request response raw r E Er Ef).
        repeat constructor; intros s' H; inversion H; reflexivity.
      * rewrite (scan_clean w request response raw r E Er Ef).
        repeat constructor; intros s' H; inversion H; reflexivity.
    + destruct (format1 "Invalid response from clamd: " EmptyString raw)
        as [msg | e'] eqn:Em.
      * rewrite (scan_malformed w request response raw e msg E Er Em).
        repeat constructor; intros s' H; inversion H; reflexivity.
      * rewrite (scan_malformed_tuple w request response raw e e' E Er Em).
        repeat constructor; intros s' H; inversion H; reflexivity.
  - rewrite (scan_transport_error w request response e E).
    repeat constructor; intros s' H; inversion H; reflexivity.
Qed.

Lemma grep_sockets w request response :
  Forall (goes_through (_clamd_socket (self w)))
         (calls (grep request response w)).
Proof.
  rewrite (grep_run w request response). cbv zeta.
  pose proof (probe_sockets w) as Hp.
  pose proof (probe_frame w) as (_ & _ & _ & _ & _ & Hps & _).
  cbv zeta in Hps.
  set (p := _is_properly_configured w) in *.
  destruct (value p) as [configured | e]; [| exact Hp].
  destruct (py_not configured); [exact Hp |].
  destruct (negb (allowed_method request) || negb (allowed_code response))%bool;
    [exact Hp |].
  destruct (bloom_contains (get_url response)
              (_already_analyzed (self (after p)))); cbn [calls].
  - apply Forall_app. split; [exact Hp |].
    repeat constructor; intros s' H; inversion H.
  - apply Forall_app. split; [exact Hp |].
    constructor; [intros s' H; inversion H |].
    constructor; [intros s' H; inversion H |].
    pose proof (scan_sockets (marked (after p) (get_url response))
                             request response) as Hs.
    unfold marked in Hs at 1. simpl in Hs. rewrite Hps in Hs. exact Hs.
Qed.

(** X17: the daemon is reached through the configured socket.  Every ping,
    version command and stream that a call of [grep] sends goes through the
    socket configured when [grep] is called; after [set_options] with a
    socket path, that is the given path. *)

Theorem daemon_commands_use_configured_socket w request response :
  Forall (goes_through (_clamd_socket (self w))) (calls (grep request response w))
  /\ (forall options_list v,
        option_value options_list "clamd_socket" = Return v ->
        Forall (goes_through v)
               (calls (grep request response (after (set_options options_list w))))).
Proof.
  split; [apply grep_sockets |].
  intros options_list v Hv.
  pose proof (grep_sockets (after (set_options options_list w)) request response)
    as H.
  rewrite set_options_run, Hv in H. simpl in H.
  rewrite set_options_run, Hv. simpl. exact H.
Qed.

(** *** The options *)

Lemma world_eta w v :
  v = _clamd_socket (self w) ->
  mkWorld (set__clamd_socket v (self w)) (clamd w) = w.
Proof.
  intros E. subst v. destruct w as [[f c s] d]. reflexivity.
Qed.

(** X18: setting the options the plugin reports changes nothing.
    [get_options] has no effect, and [set_options] with the names and
    values of the options [get_options] returned gives back the same
    plugin, without a call to a collaborator. *)

Theorem set_options_of_get_options w options :
  value (get_options w) = Return options ->
  after (get_options w) = w
  /\ calls (get_options w) = []
  /\ set_options (names_and_values options) w = mkRun (Return tt) w [].
Proof.
  unfold get_options, bind, read, ret. simpl. intros H. inversion H. subst options.
  split; [reflexivity |]. split; [reflexivity |].
  rewrite set_options_run. simpl. rewrite world_eta; reflexivity.
Qed.

(** X19: [get_options] reports what [set_options] stored.  After
    [set_options] with a socket path, [get_options] returns one option,
    named ['clamd_socket'], of type [STRING], whose value is that path; on
    a new plugin the value is ['/var/run/clamav/clamd.ctl']. *)

Theorem get_options_of_set_options w options_list v :
  option_value options_list "clamd_socket" = Return v ->
  (exists o,
     value (get_options (after (set_options options_list w))) = Return [o]
     /\ opt_name o = "clamd_socket"
     /\ opt_value o = v
     /\ opt_type o = STRING
     /\ option_value (names_and_values [o]) "clamd_socket" = Return v)
  /\ (forall d, exists o,
        value (get_options (start d)) = Return [o]
        /\ opt_value o = "/var/run/clamav/clamd.ctl").
Proof.
  intros Hv. split.
  - rewrite set_options_run, Hv.
    unfold get_options, bind, read, ret. simpl.
    eexists. split; [reflexivity |]. repeat split.
  - intros d. unfold get_options, bind, read, ret. simpl.
    eexists. split; reflexivity.
Qed.

(** *** Statuses other than ['FOUND'], and the exceptions of [grep] *)

(** X21: any status but ['FOUND'] is a clean scan.  With the probe resolved
    to [True], an allowed method and code and a URL the filter does not
    report, a reply whose ['stream'] entry starts with a status that is not
    the string ['FOUND'] (['OK'], ['ERROR'], or anything else) makes [grep]
    return after the scan: no finding and no message whatever the second
    item is, and the URL stays added. *)

Theorem other_status_is_clean w request response entries status sig rest :
  _properly_configured (self w) = Some true ->
  allowed_method request = true ->
  allowed_code response = true ->
  bloom_contains (get_url response) (_already_analyzed (self w)) = false ->
  scan_reply (marked w (get_url response)) response = Reply (PyDict entries) ->
  dict_lookup (fun k => py_eq_str k "stream") entries
  = Some (PyTuple (status :: sig :: rest)) ->
  status <> PyStr "FOUND" ->
  grep request response w
  = mkRun (Return tt) (scanned (marked w (get_url response)) response)
          [BloomContains (get_url response);
           BloomAdd (get_url response);
           Instream (_clamd_socket (self w)) (get_body response)].
Proof.
  intros Hc Hm Hcode Hnew Hreply Hlook Hstatus.
  assert (Hp : value (_is_properly_configured w) = Return (Some true)).
  { rewrite (probe_resolved w true Hc). reflexivity. }
  rewrite (grep_dispatches w request response Hp Hm Hcode Hnew). cbv zeta.
  rewrite (probe_resolved w true Hc). cbn [value after calls].
  assert (Hparse : _parse_scan_result_try (PyDict entries)
                   = Return (mkScanResult (py_eq_str status "FOUND") sig)).
  { unfold _parse_scan_result_try. simpl. rewrite Hlook. reflexivity. }
  assert (Hf : found (mkScanResult (py_eq_str status "FOUND") sig) = false).
  { simpl. destruct (py_eq_str status "FOUND") eqn:E; [| reflexivity].
    apply py_eq_str_true in E. contradiction. }
  rewrite (scan_clean _ request response _ _ Hreply Hparse Hf). reflexivity.
Qed.



(** X22: what [grep] can raise.  When [grep] raises, either the probe was
    not resolved, the daemon answered the ping with ['PONG'] and the version
    command (or the rendering of its reply) raised, the probe staying
    unresolved and no stream being sent; or one stream was sent and the
    daemon's client raised that exception; or one stream was sent, the
    reply was malformed and the exception is [AttributeError] (or
    [TypeError], for a reply that is a tuple). *)


End Plugin.

Arguments mkRun {F D A} value after calls.
Arguments value {F D A} r.
Arguments after {F D A} r.
Arguments calls {F D A} r.
Arguments mkWorld {F D} self clamd.
Arguments self {F D} w.
Arguments clamd {F D} w.


(** ** The plugin at work *)

Lemma exact_filter_no_false_positives : no_false_positives ExactFilter.
Proof.
  intros l x. unfold bloom_of_list. simpl.
  induction l as [| y l IH]; simpl.
  - discriminate.
  - intros H. apply orb_true_iff in H. destruct H as [H | H].
    + left. apply String.eqb_eq in H. symmetry. exact H.
    + right. apply IH. exact H.
Qed.

(** C1, at the empty dictionary: the parser logs the invalid response and
    returns [None]; [_scan_http_response] then reads [result.found] and
    [grep] raises [AttributeError].  Nothing is sent to the knowledge base. *)

Theorem malformed_reply_raises_attribute_error :
  grep empty_reply eicar_request eicar_response (start empty_reply 0)
  = mkRun (Raise AttributeError)
          (mkWorld (D := empty_reply)
                   {| _already_analyzed := bloom_add "http://x/test" bloom_new;
                      _properly_configured := Some true;
                      _clamd_socket := "/var/run/clamav/clamd.ctl" |} 1)
          [Ping "/var/run/clamav/clamd.ctl";
           Version "/var/run/clamav/clamd.ctl";
           OmInformation
             "Using ClamAV 0.97.8/17000 for scanning HTTP response bodies.";
           BloomContains "http://x/test";
           BloomAdd "http://x/test";
           Instream "/var/run/clamav/clamd.ctl" (get_body eicar_response);
           OmDebug "Invalid response from clamd: {}"].
Proof.
  vm_compute. reflexivity.
Qed.

(** C6, with a daemon that answers the ping and loses the connection of the
    version command: the first call of the probe raises and leaves
    [_properly_configured] at [None], so the second call sends a second
    ping. *)

Theorem probe_asked_twice_after_version_error :
  let r1 := _is_properly_configured slow_start (start slow_start 0) in
  let r2 := _is_properly_configured slow_start (after r1) in
  value r1 = Raise ConnectionError
  /\ _properly_configured (self (after r1)) = None
  /\ calls r1 = [Ping "/var/run/clamav/clamd.ctl";
                 Version "/var/run/clamav/clamd.ctl"]
  /\ value r2 = Return (Some true)
  /\ pings (calls r1 ++ calls r2) = 2.
Proof.
  vm_compute. repeat split.
Qed.

(** C2 fails: with a daemon whose client raises [ConnectionError] during
    the scan, [grep] raises [ConnectionError], and the output manager gets
    nothing after the scan was sent. *)

Lemma transport_error_not_caught :
  value (grep broken_scanner eicar_request eicar_response (start broken_scanner 0))
  = Raise ConnectionError
  /\ value (grep broken_scanner eicar_request eicar_response
                 (start broken_scanner 0))
     <> Return tt
  /\ calls (grep broken_scanner eicar_request eicar_response
                 (start broken_scanner 0))
     = [Ping "/var/run/clamav/clamd.ctl";
        Version "/var/run/clamav/clamd.ctl";
        OmInformation
          "Using ClamAV 0.97.8/17000 for scanning HTTP response bodies.";
        BloomContains "http://x/test";
        BloomAdd "http://x/test";
        Instream "/var/run/clamav/clamd.ctl" (get_body eicar_response)].
Proof.
  split; [| split].
  - vm_compute. reflexivity.
  - vm_compute. discriminate.
  - vm_compute. reflexivity.
Qed.

Lemma transport_error_propagates_witness :
  value (_is_properly_configured broken_scanner (start broken_scanner 0))
  = Return (Some true)
  /\ value (grep broken_scanner eicar_request eicar_response
                 (start broken_scanner 0))
     = Raise ConnectionError.
Proof.
  split; [vm_compute; reflexivity |].
  apply (transport_error_propagates broken_scanner (start broken_scanner 0)
           eicar_request eicar_response ConnectionError);
    vm_compute; reflexivity.
Defined.

(** C3 fails: clamd's reply to a stream it could not scan is parsed into a
    [ScanResult] that is not [found] and whose signature is the error text. *)

Lemma error_reply_keeps_its_text :
  exists r,
    value (_parse_scan_result failing_scanner stream_error
             (start failing_scanner 0)) = Return (Some r)
    /\ found r = false
    /\ signature r = PyStr "Can't allocate memory"
    /\ signature r <> PyNone.
Proof.
  exists (mkScanResult false (PyStr "Can't allocate memory")).
  split; [vm_compute; reflexivity |].
  split; [reflexivity |]. split; [reflexivity | discriminate].
Qed.

Lemma parse_signature_is_second_item_witness :
  exists entry status sig,
    getitem_str stream_error "stream" = Return entry
    /\ getitem_int entry 0 = Return status
    /\ getitem_int entry 1 = Return sig
    /\ false = py_eq_str status "FOUND"
    /\ PyStr "Can't allocate memory" = sig
    /\ (false = false -> (PyStr "Can't allocate memory" = PyNone <-> sig = PyNone)).
Proof.
  apply (parse_signature_is_second_item failing_scanner (start failing_scanner 0)
           stream_error (mkScanResult false (PyStr "Can't allocate memory"))).
  vm_compute. reflexivity.
Defined.

Lemma grep_twice_dispatches_once_witness :
  dispatches
    (calls (grep eicar_scanner eicar_request eicar_response (start eicar_scanner 0))
     ++ calls (grep eicar_scanner eicar_request eicar_response
                 (after (grep eicar_scanner eicar_request eicar_response
                           (start eicar_scanner 0))))) = 1.
Proof.
  apply (proj2 (grep_twice_dispatches_once eicar_scanner (start eicar_scanner 0)
                  eicar_request eicar_response)
           exact_filter_no_false_positives []).
  - reflexivity.
  - simpl. tauto.
  - vm_compute. reflexivity.
  - reflexivity.
  - reflexivity.
Defined.

Lemma gate_skips_filter_and_scan_witness :
  allowed_method post_request = false
  /\ filter is_bloom
       (calls (grep eicar_scanner post_request eicar_response
                 (start eicar_scanner 0))) = []
  /\ dispatches
       (calls (grep eicar_scanner post_request eicar_response
                 (start eicar_scanner 0))) = 0.
Proof.
  split; [reflexivity |].
  pose proof (gate_skips_filter_and_scan eicar_scanner (start eicar_scanner 0)
                post_request eicar_response (or_introl eq_refl))
    as (Hb & Hd & _).
  split; assumption.
Defined.

Lemma report_gate_witness :
  exists i,
    filter is_kb_append
      (calls (_scan_http_response eicar_scanner eicar_request eicar_response
                (start eicar_scanner 0)))
    = [KbAppend "malware" i]
    /\ info_url i = Some "http://x/test"
    /\ occurs_in "http://x/test" (info_desc i)
    /\ occurs_in "Eicar-Test-Signature" (info_desc i).
Proof.
  destruct (report_gate eicar_scanner (start eicar_scanner 0) eicar_request
              eicar_response eicar_found
              (mkScanResult true (PyStr "Eicar-Test-Signature"))
              eq_refl eq_refl) as [_ H].
  destruct (H eq_refl) as (i & Hk & Hu & Ho & Hs & _).
  exists i. repeat split; assumption.
Defined.

Lemma dispatched_url_never_scanned_again_witness :
  0 < dispatches
        (calls (grep broken_scanner eicar_request eicar_response
                  (start broken_scanner 0)))
  /\ dispatches
       (calls (grep broken_scanner eicar_request eicar_response
                 (fst (run_ops broken_scanner
                         [SetOptions other_socket;
                          Grep post_request eicar_response]
                         (after (grep broken_scanner eicar_request eicar_response
                                   (start broken_scanner 0))))))) = 0.
Proof.
  assert (H : 0 < dispatches
                    (calls (grep broken_scanner eicar_request eicar_response
                              (start broken_scanner 0)))).
  { vm_compute. lia. }
  split; [exact H |].
  apply (dispatched_url_never_scanned_again broken_scanner
           (start broken_scanner 0) eicar_request eicar_response H
           [SetOptions other_socket; Grep post_request eicar_response]
           eicar_request eicar_response eq_refl).
Defined.

Lemma set_options_frame_witness :
  _properly_configured
    (self (after (_is_properly_configured unreachable (start unreachable 0))))
  = Some false
  /\ pings
       (snd (run_ops unreachable
               [SetOptions other_socket; Grep eicar_request eicar_response]
               (after (_is_properly_configured unreachable (start unreachable 0)))))
     = 0.
Proof.
  assert (H : _properly_configured
                (self (after (_is_properly_configured unreachable
                                (start unreachable 0)))) = Some false).
  { vm_compute. reflexivity. }
  split; [exact H |].
  destruct (set_options_frame unreachable
              (after (_is_properly_configured unreachable (start unreachable 0)))
              other_socket) as (_ & _ & _ & _ & _ & Hc).
  apply (Hc false H [Grep eicar_request eicar_response]).
Defined.

(** ** The further properties at work *)

Lemma probe_failure_disables_witness :
  value (_is_properly_configured unreachable (start unreachable 0))
  = Return (Some false).
Proof.
  rewrite (probe_failure_disables unreachable (start unreachable 0) eq_refl).
  - reflexivity.
  - simpl. discriminate.
Defined.

Lemma probe_success_enables_witness :
  calls (_is_properly_configured eicar_scanner (start eicar_scanner 0))
  = [Ping "/var/run/clamav/clamd.ctl";
     Version "/var/run/clamav/clamd.ctl";
     OmInformation "Using ClamAV 0.97.8/17000 for scanning HTTP response bodies."].
Proof.
  rewrite (probe_success_enables eicar_scanner (start eicar_scanner 0)
             (PyStr "ClamAV 0.97.8/17000")
             "Using ClamAV 0.97.8/17000 for scanning HTTP response bodies."
             eq_refl eq_refl eq_refl eq_refl).
  reflexivity.
Defined.

Lemma unresolved_grep_pings_once_witness :
  filter is_ping (calls (grep eicar_scanner post_request eicar_response
                           (start eicar_scanner 0)))
  = [Ping "/var/run/clamav/clamd.ctl"].
Proof.
  apply (unresolved_grep_pings_once eicar_scanner (start eicar_scanner 0)
           post_request eicar_response eq_refl).
Defined.

Lemma parse_of_tuple_raises_witness :
  _parse_scan_result eicar_scanner (PyTuple [PyStr "OK"; PyNone])
                     (start eicar_scanner 0)
  = mkRun (Raise TypeError) (start eicar_scanner 0) [].
Proof.
  apply (parse_of_tuple_raises eicar_scanner (start eicar_scanner 0)
           [PyStr "OK"; PyNone]).
  simpl. discriminate.
Defined.


Lemma parse_of_stream_entry_witness :
  _parse_scan_result failing_scanner stream_error (start failing_scanner 0)
  = mkRun (Return (Some (mkScanResult false (PyStr "Can't allocate memory"))))
          (start failing_scanner 0) [].
Proof.
  apply (parse_of_stream_entry failing_scanner (start failing_scanner 0)
           [(PyStr "stream",
             PyTuple [PyStr "ERROR"; PyStr "Can't allocate memory"])]
           (PyTuple [PyStr "ERROR"; PyStr "Can't allocate memory"])
           (PyStr "ERROR") (PyStr "Can't allocate memory") [] eq_refl
           (or_introl eq_refl)).
Defined.

Lemma parse_of_string_entry_witness :
  _parse_scan_result eicar_scanner (PyDict [(PyStr "stream", PyStr "OK")])
                     (start eicar_scanner 0)
  = mkRun (Return (Some (mkScanResult false (PyStr "K"))))
          (start eicar_scanner 0) [].
Proof.
  apply (parse_of_string_entry eicar_scanner (start eicar_scanner 0)
           [(PyStr "stream", PyStr "OK")] "O"%char "K"%char EmptyString eq_refl).
Defined.

Lemma seen_url_is_skipped_witness :
  calls (grep eicar_scanner eicar_request eicar_response
           (after (grep eicar_scanner eicar_request eicar_response
                     (start eicar_scanner 0))))
  = [BloomContains "http://x/test"].
Proof.
  rewrite (seen_url_is_skipped eicar_scanner
             (after (grep eicar_scanner eicar_request eicar_response
                       (start eicar_scanner 0)))
             eicar_request eicar_response);
    vm_compute; reflexivity.
Defined.

Lemma grep_reports_found_witness :
  exists i,
    calls (grep eicar_scanner eicar_request eicar_response (probed eicar_scanner 0))
    = [BloomContains "http://x/test";
       BloomAdd "http://x/test";
       Instream "/var/run/clamav/clamd.ctl" (get_body eicar_response);
       KbAppend "malware" i]
    /\ info_url i = Some "http://x/test".
Proof.
  assert (H : _properly_configured (self (probed eicar_scanner 0)) = Some true).
  { vm_compute. reflexivity. }
  destruct (grep_reports_found eicar_scanner (probed eicar_scanner 0)
              eicar_request eicar_response eicar_found
              (mkScanResult true (PyStr "Eicar-Test-Signature"))
              H eq_refl eq_refl eq_refl eq_refl eq_refl eq_refl)
    as (i & Hrun & _ & _ & _ & _ & Hurl).
  exists i. rewrite Hrun. split; [reflexivity | exact Hurl].
Defined.

Lemma disabled_plugin_is_inert_witness :
  snd (run_ops unreachable
         [Grep eicar_request eicar_response; SetOptions other_socket;
          IsProperlyConfigured; Grep eicar_request other_response]
         (probed unreachable 0)) = [].
Proof.
  apply (disabled_plugin_is_inert unreachable (probed unreachable 0)
           [Grep eicar_request eicar_response; SetOptions other_socket;
            IsProperlyConfigured; Grep eicar_request other_response]).
  vm_compute. reflexivity.
Defined.

Lemma added_urls_are_distinct_witness :
  ~ In "http://x/test"
       (added (snd (run_ops eicar_scanner
                      [Grep eicar_request eicar_response;
                       Grep eicar_request other_response]
                      (after (grep eicar_scanner eicar_request eicar_response
                                (start eicar_scanner 0)))))).
Proof.
  apply (proj2 (added_urls_are_distinct eicar_scanner
                  [Grep eicar_request eicar_response;
                   Grep eicar_request other_response]
                  (after (grep eicar_scanner eicar_request eicar_response
                            (start eicar_scanner 0))))
           "http://x/test").
  vm_compute. reflexivity.
Defined.

Lemma filter_holds_added_urls_witness :
  _already_analyzed
    (self (fst (run_ops eicar_scanner
                  [Grep eicar_request eicar_response;
                   Grep eicar_request other_response]
                  (start eicar_scanner 0))))
  = bloom_of_list ["http://x/other"; "http://x/test"].
Proof.
  rewrite (filter_holds_added_urls eicar_scanner
             [Grep eicar_request eicar_response;
              Grep eicar_request other_response]
             (start eicar_scanner 0) [] eq_refl).
  reflexivity.
Defined.

Lemma no_scan_without_health_check_witness :
  dispatches (snd (run_ops slow_start
                     [Grep eicar_request eicar_response]
                     (start slow_start 0))) = 0.
Proof.
  apply (no_scan_without_health_check slow_start
           [Grep eicar_request eicar_response] (start slow_start 0)).
  vm_compute. discriminate.
Defined.

Lemma fresh_url_is_scanned_witness :
  dispatches
    (calls (grep eicar_scanner eicar_request other_response
              (fst (run_ops eicar_scanner [Grep eicar_request eicar_response]
                      (start eicar_scanner 0))))) = 1.
Proof.
  apply (fresh_url_is_scanned eicar_scanner [Grep eicar_request eicar_response]
           (start eicar_scanner 0) [] eicar_request other_response
           exact_filter_no_false_positives eq_refl).
  - simpl. tauto.
  - vm_compute. intros [E | []]. discriminate E.
  - vm_compute. reflexivity.
  - reflexivity.
  - reflexivity.
Defined.

Lemma daemon_commands_use_configured_socket_witness :
  Forall (goes_through "/tmp/clamd.socket")
         (calls (grep eicar_scanner eicar_request eicar_response
                   (after (set_options eicar_scanner other_socket
                             (start eicar_scanner 0))))).
Proof.
  apply (proj2 (daemon_commands_use_configured_socket eicar_scanner
                  (start eicar_scanner 0) eicar_request eicar_response)
           other_socket "/tmp/clamd.socket" eq_refl).
Defined.

Lemma set_options_of_get_options_witness :
  set_options eicar_scanner
    (names_and_values
       [mkOpt "clamd_socket" "/var/run/clamav/clamd.ctl"
              "ClamAV daemon socket path" STRING
              ("Communication with ClamAV is performed over an Unix socket, in"
               ++ " order to be able to use this plugin please start a clamd daemon"
               ++ " and provide the unix socket path.")])
    (start eicar_scanner 0)
  = mkRun (Return tt) (start eicar_scanner 0) [].
Proof.
  apply (set_options_of_get_options eicar_scanner (start eicar_scanner 0)).
  reflexivity.
Defined.

Lemma get_options_of_set_options_witness :
  exists o,
    value (get_options eicar_scanner
             (after (set_options eicar_scanner other_socket
                       (start eicar_scanner 0)))) = Return [o]
    /\ opt_value o = "/tmp/clamd.socket".
Proof.
  destruct (proj1 (get_options_of_set_options eicar_scanner
                     (start eicar_scanner 0) other_socket "/tmp/clamd.socket"
                     eq_refl))
    as (o & Ho & _ & Hv & _).
  exists o. split; assumption.
Defined.

Lemma probe_resolves_once_witness :
  pings (calls (_is_properly_configured eicar_scanner (start eicar_scanner 0))) = 1.
Proof.
  apply (probe_resolves_once eicar_scanner (start eicar_scanner 0) (Some true)
           eq_refl eq_refl).
Defined.

Lemma other_status_is_clean_witness :
  calls (grep failing_scanner eicar_request eicar_response
           (probed failing_scanner 0))
  = [BloomContains "http://x/test";
     BloomAdd "http://x/test";
     Instream "/var/run/clamav/clamd.ctl" (get_body eicar_response)].
Proof.
  rewrite (other_status_is_clean failing_scanner (probed failing_scanner 0)
             eicar_request eicar_response
             [(PyStr "stream",
               PyTuple [PyStr "ERROR"; PyStr "Can't allocate memory"])]
             (PyStr "ERROR") (PyStr "Can't allocate memory") []);
    try discriminate; vm_compute; reflexivity.
Defined.

